(** * The swarm schedule sensor of llm-observatory

    A shallow embedding of [dagster_definitions/sensors.py]: the cron
    matcher [cron_matches], the schedule resolver [get_effective_cron] and
    the polling sensor [swarm_schedule_sensor] with its dedup cursor.

    Conventions of the embedding.
    - A Python [str] is a [string] whose characters are code points below
      256; Python integers are [Z].
    - A call that can raise returns a [result]; [Raise e] carries the
      exception.  Only the class of an exception raised by the interpreter
      itself is relied upon, its message text is indicative.
    - The clock, the [json] module and the HTTP resource
      [ObservatoryApiResource] are outside the file: the instant is an
      argument, the other two are section variables.  [json.loads] gives
      the members of an object in order, with distinct keys.
    - A swarm record has the fields the sensor reads, typed as the
      registry sends them; its [id] is always there.  The listing the
      sensor iterates is a list of such records: on a listing of another
      shape ([null], a record that is not an object) the code raises where
      it iterates or reads the record, and the sensor of this file says
      nothing.
    - An instant is one of the sensor's clock, of a year of four digits:
      [strftime] is embedded for the years 1000 to 9999, where [%Y] gives
      four digits on every platform.
    - The limit [int()] puts on the number of digits is not modelled.
    - [resources.py] is embedded in [ObservatoryApiResource] over
      [urlopen]; the sensor is stated over any API, of which the resource
      is one. *)

From Stdlib Require Import ZArith List String Ascii Bool Lia DecimalString.
Import ListNotations.

Set Warnings "-register-all".

Open Scope string_scope.
Open Scope Z_scope.

(** ** Exceptions and results *)

Inductive exn_class : Type :=
| ValueError
| ZeroDivisionError
| AttributeError
| JSONDecodeError
| RuntimeError
| OSError.

Record exn : Type := Exn { exn_kind : exn_class; exn_str : string }.

Inductive result (A : Type) : Type :=
| Ok (a : A)
| Raise (e : exn).

Arguments Ok {A} a.
Arguments Raise {A} e.

Definition bind {A B : Type} (r : result A) (k : A -> result B) : result B :=
  match r with
  | Ok a => k a
  | Raise e => Raise e
  end.

Notation "x <- r ;; k" := (bind r (fun x => k))
  (at level 61, r at next level, right associativity).

Definition raises_class {A : Type} (c : exn_class) (r : result A) : Prop :=
  exists msg, r = Raise (Exn c msg).

(** [a and b] on two calls that may raise: [b] is evaluated only when [a]
    returned [True]. *)
Definition and_then (a b : result bool) : result bool :=
  match a with
  | Ok true => b
  | Ok false => Ok false
  | Raise e => Raise e
  end.

(** ** Strings as Python sees them *)

Definition code (c : ascii) : N := N_of_ascii c.

Definition between (lo hi n : N) : bool := ((lo <=? n) && (n <=? hi))%N.

(** Whitespace of [str.split()] and [str.strip()] without argument. *)
Definition is_space (c : ascii) : bool :=
  between 9 13 (code c) || between 28 32 (code c)
  || (code c =? 133)%N || (code c =? 160)%N.

(** Whitespace skipped by [int()] around the literal. *)
Definition is_int_space (c : ascii) : bool :=
  between 9 13 (code c) || (code c =? 32)%N
  || (code c =? 133)%N || (code c =? 160)%N.

Fixpoint lstrip_with (sp : ascii -> bool) (s : string) : string :=
  match s with
  | EmptyString => EmptyString
  | String c s' => if sp c then lstrip_with sp s' else s
  end.

Fixpoint rstrip_with (sp : ascii -> bool) (s : string) : string :=
  match s with
  | EmptyString => EmptyString
  | String c s' =>
      match rstrip_with sp s' with
      | EmptyString => if sp c then EmptyString else String c EmptyString
      | r => String c r
      end
  end.

Definition strip_with (sp : ascii -> bool) (s : string) : string :=
  rstrip_with sp (lstrip_with sp s).

(** [s.strip()] *)
Definition strip (s : string) : string := strip_with is_space s.

(** [s.split()]: the maximal runs of non-whitespace characters.  [cur] is
    the word being read. *)
Fixpoint split_from (cur : string) (s : string) : list string :=
  match s with
  | EmptyString => if (cur =? "")%string then [] else [cur]
  | String c s' =>
      if is_space c
      then (if (cur =? "")%string then split_from "" s'
            else cur :: split_from "" s')
      else split_from (cur ++ String c "") s'
  end.

Definition split (s : string) : list string := split_from "" s.

(** [s.split(sep)] for a one-character separator. *)
Fixpoint split_on (sep : ascii) (s : string) : list string :=
  match s with
  | EmptyString => [""]
  | String c s' =>
      if (c =? sep)%char then "" :: split_on sep s'
      else match split_on sep s' with
           | w :: ws => String c w :: ws
           | [] => [String c ""]
           end
  end.

(** [sep in s] for a one-character [sep]. *)
Fixpoint contains (sep : ascii) (s : string) : bool :=
  match s with
  | EmptyString => false
  | String c s' => (c =? sep)%char || contains sep s'
  end.

(** [s[:n]] *)
Definition slice_to (n : nat) (s : string) : string := substring 0 n s.

(** [a > b] on strings: lexicographic on code points. *)
Definition str_gt (a b : string) : bool :=
  match String.compare a b with
  | Gt => true
  | _ => false
  end.

(** [k.startswith(p)] *)
Definition startswith (k p : string) : bool := prefix p k.

(** ** [int(s)] *)

Definition digit_val (c : ascii) : option Z :=
  if between 48 57 (code c) then Some (Z.of_N (code c) - 48) else None.

(** Digits with single underscores between them; [prev] tells whether the
    previous character was a digit. *)
Fixpoint int_digits (acc : Z) (prev : bool) (s : string) : option Z :=
  match s with
  | EmptyString => if prev then Some acc else None
  | String c s' =>
      match digit_val c with
      | Some d => int_digits (10 * acc + d) true s'
      | None =>
          if (c =? "_")%char && prev then int_digits acc false s' else None
      end
  end.

Definition int_literal (s : string) : option Z :=
  match strip_with is_int_space s with
  | String "+" r => int_digits 0 false r
  | String "-" r => option_map Z.opp (int_digits 0 false r)
  | t => int_digits 0 false t
  end.

Definition invalid_literal (s : string) : exn :=
  Exn ValueError ("invalid literal for int() with base 10: '" ++ s ++ "'").

Definition py_int (s : string) : result Z :=
  match int_literal s with
  | Some n => Ok n
  | None => Raise (invalid_literal s)
  end.

(** [[int(x) for x in xs]]: the first failure is raised. *)
Fixpoint map_int (xs : list string) : result (list Z) :=
  match xs with
  | [] => Ok []
  | x :: xs' => n <- py_int x ;; ns <- map_int xs' ;; Ok (n :: ns)
  end.

(** ** [datetime] *)

(** An instant of the sensor's clock, [datetime.now(timezone.utc)]. *)
Record datetime : Type := DateTime {
  year : Z; month : Z; day : Z; hour : Z; minute : Z; second : Z
}.

Definition is_leap (y : Z) : bool :=
  (y mod 4 =? 0) && (negb (y mod 100 =? 0) || (y mod 400 =? 0)).

Definition days_before_year (y : Z) : Z :=
  let p := y - 1 in p * 365 + p / 4 - p / 100 + p / 400.

Definition days_before_month (y m : Z) : Z :=
  nth (Z.to_nat m) [0; 0; 31; 59; 90; 120; 151; 181; 212; 243; 273; 304; 334] 0
  + (if (2 <? m) && is_leap y then 1 else 0).

(** [date.toordinal()]: 1 is 0001-01-01. *)
Definition toordinal (dt : datetime) : Z :=
  days_before_year (year dt) + days_before_month (year dt) (month dt) + day dt.

(** [dt.weekday()]: 0 is Monday, 6 is Sunday. *)
Definition weekday (dt : datetime) : Z := (toordinal dt + 6) mod 7.

(** ** The cron matcher *)

Definition unpack_error : exn :=
  Exn ValueError "too many values to unpack (expected 2)".

Definition modulo_by_zero : exn :=
  Exn ZeroDivisionError "integer modulo by zero".

(** The inner function [matches_field] of [cron_matches]. *)
Definition matches_field (field : string) (value : Z) : result bool :=
  if (field =? "*")%string then Ok true
  else if contains "/" field then
    match split_on "/" field with
    | [base; step] =>
        step_val <- py_int step ;;
        if (base =? "*")%string
        then (if step_val =? 0 then Raise modulo_by_zero
              else Ok (value mod step_val =? 0))
        else Ok false
    | _ => Raise unpack_error
    end
  else if contains "-" field then
    match split_on "-" field with
    | [lo; hi] =>
        start <- py_int lo ;;
        stop <- py_int hi ;;
        Ok ((start <=? value) && (value <=? stop))
    | lo :: hi :: more :: _ =>
        (* the unpacking draws a third item from [map(int, ...)] *)
        _ <- py_int lo ;; _ <- py_int hi ;; _ <- py_int more ;;
        Raise unpack_error
    | _ => Raise unpack_error
    end
  else if contains "," field then
    vals <- map_int (split_on "," field) ;;
    Ok (existsb (Z.eqb value) vals)
  else
    v <- py_int field ;;
    Ok (value =? v).

(** Cron weekday: 0 is Sunday; Python weekday: 0 is Monday. *)
Definition cron_weekday (dt : datetime) : Z := (weekday dt + 1) mod 7.

Definition cron_matches (cron_expression : string) (dt : datetime)
  : result bool :=
  match split (strip cron_expression) with
  | [f_minute; f_hour; f_day; f_month; f_weekday] =>
      and_then (matches_field f_minute (minute dt))
        (and_then (matches_field f_hour (hour dt))
           (and_then (matches_field f_day (day dt))
              (and_then (matches_field f_month (month dt))
                 (matches_field f_weekday (cron_weekday dt)))))
  | _ => Ok false
  end.

(** ** The schedule resolver *)

(** A swarm record of the registry.  A key that is missing or null reads
    as [None] through [swarm.get]. *)
Record swarm : Type := Swarm {
  id : string;
  display_name : option string;
  is_paused : option bool;
  schedule_type : option string;
  cron_expression : option string
}.

(** Truth value of a string-or-None and of a bool-or-None. *)
Definition truthy (o : option string) : bool :=
  match o with
  | Some s => negb (s =? "")%string
  | None => false
  end.

Definition truthy_flag (o : option bool) : bool :=
  match o with
  | Some b => b
  | None => false
  end.

Fixpoint lookup {V : Type} (k : string) (d : list (string * V)) : option V :=
  match d with
  | [] => None
  | (k', v) :: d' => if (k' =? k)%string then Some v else lookup k d'
  end.

Definition defaults : list (string * string) :=
  [ ("daily", "0 9 * * *");
    ("weekly", "0 9 * * 1");
    ("monthly", "0 9 1 * *") ].

Definition get_effective_cron (sw : swarm) : option string :=
  if negb (truthy (schedule_type sw)) then None
  else if truthy (cron_expression sw) then cron_expression sw
  else match schedule_type sw with
       | Some ty => lookup ty defaults
       | None => None
       end.

(** ** The cursor *)

(** What [json.loads] returns. *)
Inductive json : Type :=
| JNull
| JBool (b : bool)
| JNumber (literal : string)
| JString (s : string)
| JArray (items : list json)
| JObject (members : list (string * json)).

(** The ledger: a Python dict from string keys, in insertion order. *)
Definition dict : Type := list (string * json).

(** [k in d] *)
Definition dict_has (k : string) (d : dict) : bool :=
  existsb (fun kv => (fst kv =? k)%string) d.

(** [d[k] = v]: an existing key keeps its place, a new one goes last. *)
Fixpoint dict_set (k : string) (v : json) (d : dict) : dict :=
  match d with
  | [] => [(k, v)]
  | (k', v') :: d' =>
      if (k' =? k)%string then (k', v) :: d' else (k', v') :: dict_set k v d'
  end.

Definition keys (d : dict) : list string := map fst d.

(** [j.items()] *)
Definition dict_items (j : json) : result dict :=
  match j with
  | JObject members => Ok members
  | _ => Raise (Exn AttributeError "object has no attribute 'items'")
  end.

(** [strftime]: the decimal digits of the components of a valid datetime. *)
Definition digit_char (d : Z) : ascii := ascii_of_N (48 + Z.to_N d).

(** [%m], [%d], [%H], [%M]: two digits, for a component from 0 to 99. *)
Definition pad2 (n : Z) : string :=
  String (digit_char (n / 10 mod 10)) (String (digit_char (n mod 10)) "").

(** [%Y] for a year from 1000 to 9999: its four digits, the decimal
    numeral of the year.  Below 1000 the C library behind [strftime] may
    leave the year unpadded (glibc gives ["999"]): such a year is outside
    [valid_datetime], no clock of the sensor gives one, and [pad4] is not
    [%Y] there. *)
Definition pad4 (n : Z) : string := pad2 (n / 100) ++ pad2 (n mod 100).

(** [now.strftime("%Y-%m-%d")] *)
Definition strftime_date (dt : datetime) : string :=
  pad4 (year dt) ++ "-" ++ pad2 (month dt) ++ "-" ++ pad2 (day dt).

(** [now.strftime("%Y-%m-%d-%H")] *)
Definition strftime_hour (dt : datetime) : string :=
  strftime_date dt ++ "-" ++ pad2 (hour dt).

(** [now.strftime("%Y-%m-%d-%H-%M")] *)
Definition strftime_minute (dt : datetime) : string :=
  strftime_hour dt ++ "-" ++ pad2 (minute dt).

(** The clean-up of old cursor entries: the dict comprehension of the
    sensor, with [cutoff] the hour prefix. *)
Definition keep (cutoff : string) (k : string) : bool :=
  startswith k cutoff || str_gt k (slice_to 10 cutoff).

Definition prune (cutoff : string) (d : dict) : dict :=
  filter (fun kv => keep cutoff (fst kv)) d.

(** [f"{current_minute}:{swarm_id}"] *)
Definition dedup_key (current_minute swarm_id : string) : string :=
  current_minute ++ ":" ++ swarm_id.

(** [swarm.get("display_name") or swarm_id[:8]] *)
Definition label (sw : swarm) : string :=
  if truthy (display_name sw)
  then match display_name sw with Some n => n | None => "" end
  else slice_to 8 (id sw).

(** ** What the loop decides for a swarm *)

(** The verdict of the matcher on the schedule of a swarm that is not
    paused and has one. *)
Definition verdict (now : datetime) (sw : swarm) : option (result bool) :=
  if truthy_flag (is_paused sw) then None
  else match get_effective_cron sw with
       | Some c => if (c =? "")%string then None
                   else Some (cron_matches c now)
       | None => None
       end.

(** The swarm is to be triggered at [now]. *)
Definition due (now : datetime) (sw : swarm) : bool :=
  match verdict now sw with
  | Some (Ok true) => true
  | _ => false
  end.

(** The matcher does not raise on the swarm's schedule. *)
Definition evaluates (now : datetime) (sw : swarm) : bool :=
  match verdict now sw with
  | Some (Raise _) => false
  | _ => true
  end.

(** ** The sensor *)

Inductive level : Type := DEBUG | INFO | ERROR.

(** The calls made on the API resource, with what they returned. *)
Inductive api_call : Type :=
| GetSwarms (r : result (list swarm))
| RunSwarm (swarm_id : string) (r : result string).

(** What the sensor function returns: [None] after runs were triggered,
    or a [SkipReason]. *)
Inductive sensor_result : Type :=
| RunsTriggered
| SkipReason (reason : string).

(** The local variables of the loop. *)
Record locals : Type := Locals {
  triggered : list string;
  cursor : dict
}.

Section Sensor.

(** The API behind [ObservatoryApiResource]: its state and its two
    calls.  [run_swarm] returns the decoded response as the text that
    [str()] gives for it. *)
Variable World : Type.
Variable get_swarms : World -> result (list swarm) * World.
Variable run_swarm : string -> World -> result string * World.

(** [json.loads] and [json.dumps]. *)
Variable json_loads : string -> result json.
Variable json_dumps : dict -> string.

(** The evaluation context and the API, as one machine state. *)
Record machine : Type := Machine {
  ctx_cursor : option string;
  ctx_log : list (level * string);
  world : World;
  calls : list api_call
}.

Definition log (l : level) (msg : string) (m : machine) : machine :=
  {| ctx_cursor := ctx_cursor m;
     ctx_log := ctx_log m ++ [(l, msg)];
     world := world m;
     calls := calls m |}.

Definition update_cursor (text : string) (m : machine) : machine :=
  {| ctx_cursor := Some text;
     ctx_log := ctx_log m;
     world := world m;
     calls := calls m |}.

Definition called (c : api_call) (w : World) (m : machine) : machine :=
  {| ctx_cursor := ctx_cursor m;
     ctx_log := ctx_log m;
     world := w;
     calls := calls m ++ [c] |}.

(** [context.cursor or "{}"] *)
Definition cursor_text (m : machine) : string :=
  if truthy (ctx_cursor m)
  then match ctx_cursor m with Some s => s | None => "{}" end
  else "{}".

(** [json.loads(context.cursor or "{}")] *)
Definition load (m : machine) : result json := json_loads (cursor_text m).

(** The body of [for swarm in swarms]. *)
Definition visit (now : datetime) (current_minute : string)
    (sw : swarm) (lv : locals) (m : machine) : result locals * machine :=
  let swarm_id := id sw in
  if truthy_flag (is_paused sw) then (Ok lv, m)
  else
    let cron_expr := get_effective_cron sw in
    if negb (truthy cron_expr) then (Ok lv, m)
    else
      match cron_matches (match cron_expr with Some c => c | None => "" end)
              now with
      | Raise e => (Raise e, m)
      | Ok false => (Ok lv, m)
      | Ok true =>
          let key := dedup_key current_minute swarm_id in
          if dict_has key (cursor lv)
          then (Ok lv,
                log DEBUG ("Skipping swarm " ++ swarm_id
                           ++ " - already triggered this minute") m)
          else
            let name := label sw in
            match run_swarm swarm_id (world m) with
            | (Ok res, w) =>
                (Ok {| triggered := triggered lv ++ [name];
                       cursor := dict_set key (JBool true) (cursor lv) |},
                 log INFO ("Triggered swarm '" ++ name ++ "': " ++ res)
                   (called (RunSwarm swarm_id (Ok res)) w m))
            | (Raise e, w) =>
                (Ok lv,
                 log ERROR ("Failed to trigger swarm " ++ swarm_id
                            ++ ": " ++ exn_str e)
                   (called (RunSwarm swarm_id (Raise e)) w m))
            end
      end.

Fixpoint evaluate (now : datetime) (current_minute : string)
    (swarms : list swarm) (lv : locals) (m : machine)
  : result locals * machine :=
  match swarms with
  | [] => (Ok lv, m)
  | sw :: rest =>
      match visit now current_minute sw lv m with
      | (Ok lv', m') => evaluate now current_minute rest lv' m'
      | (Raise e, m') => (Raise e, m')
      end
  end.

Definition swarm_schedule_sensor (now : datetime) (m : machine)
  : result sensor_result * machine :=
  let current_minute := strftime_minute now in
  match load m with
  | Raise e => (Raise e, m)
  | Ok loaded =>
      let cutoff := strftime_hour now in
      match dict_items loaded with
      | Raise e => (Raise e, m)
      | Ok entries =>
          let pruned := prune cutoff entries in
          match get_swarms (world m) with
          | (Raise e, w) =>
              (Ok (SkipReason ("API error: " ++ exn_str e)),
               log ERROR ("Failed to fetch swarms: " ++ exn_str e)
                 (called (GetSwarms (Raise e)) w m))
          | (Ok swarms, w) =>
              match evaluate now current_minute swarms
                      {| triggered := []; cursor := pruned |}
                      (called (GetSwarms (Ok swarms)) w m) with
              | (Raise e, m') => (Raise e, m')
              | (Ok lv, m') =>
                  let m'' := update_cursor (json_dumps (cursor lv)) m' in
                  match triggered lv with
                  | [] => (Ok (SkipReason "No swarms matched current time"),
                           m'')
                  | _ :: _ => (Ok RunsTriggered, m'')
                  end
              end
          end
      end
  end.

(** The five ways through the loop body. *)
Inductive visited (now : datetime) (slot : string) (sw : swarm)
    (lv : locals) (m : machine)
  : result locals -> machine -> Prop :=
| visit_skip :
    due now sw = false -> evaluates now sw = true ->
    visited now slot sw lv m (Ok lv) m
| visit_raise e :
    verdict now sw = Some (Raise e) ->
    visited now slot sw lv m (Raise e) m
| visit_dedup :
    due now sw = true ->
    dict_has (dedup_key slot (id sw)) (cursor lv) = true ->
    visited now slot sw lv m (Ok lv)
      (log DEBUG ("Skipping swarm " ++ id sw
                  ++ " - already triggered this minute") m)
| visit_triggered res w :
    due now sw = true ->
    dict_has (dedup_key slot (id sw)) (cursor lv) = false ->
    run_swarm (id sw) (world m) = (Ok res, w) ->
    visited now slot sw lv m
      (Ok {| triggered := (triggered lv ++ [label sw])%list;
             cursor := (cursor lv
                        ++ [(dedup_key slot (id sw), JBool true)])%list |})
      (log INFO ("Triggered swarm '" ++ label sw ++ "': " ++ res)
         (called (RunSwarm (id sw) (Ok res)) w m))
| visit_failed e w :
    due now sw = true ->
    dict_has (dedup_key slot (id sw)) (cursor lv) = false ->
    run_swarm (id sw) (world m) = (Raise e, w) ->
    visited now slot sw lv m (Ok lv)
      (log ERROR ("Failed to trigger swarm " ++ id sw ++ ": " ++ exn_str e)
         (called (RunSwarm (id sw) (Raise e)) w m)).

(** The machine at the start of an evaluation by the daemon: the context
    holds the persisted cursor, the log and the record of calls are empty. *)
Definition init (c : option string) (w : World) : machine :=
  {| ctx_cursor := c; ctx_log := []; world := w; calls := [] |}.

(** One evaluation of the sensor by the daemon. *)
Definition tick (now : datetime) (c : option string) (w : World)
  : result sensor_result * machine :=
  swarm_schedule_sensor now (init c w).

(** The ledger the sensor works on: the cursor [c] loaded and pruned. *)
Definition pruned_ledger (now : datetime) (c : option string) (w : World)
  : option dict :=
  match load (init c w) with
  | Ok (JObject entries) => Some (prune (strftime_hour now) entries)
  | _ => None
  end.

(** The ledger the sensor serialises at the end of a completed cycle. *)
Definition outgoing_ledger (now : datetime) (c : option string) (w : World)
  : option dict :=
  match pruned_ledger now c w with
  | Some pruned =>
      match get_swarms w with
      | (Ok swarms, w1) =>
          match evaluate now (strftime_minute now) swarms
                  {| triggered := []; cursor := pruned |}
                  (called (GetSwarms (Ok swarms)) w1 (init c w)) with
          | (Ok lv, _) => Some (cursor lv)
          | (Raise _, _) => None
          end
      | (Raise _, _) => None
      end
  | None => None
  end.

End Sensor.

Arguments Machine {World} _ _ _ _.
Arguments ctx_cursor {World} _.
Arguments ctx_log {World} _.
Arguments world {World} _.
Arguments calls {World} _.
Arguments log {World} _ _ _.
Arguments update_cursor {World} _ _.
Arguments called {World} _ _ _.
Arguments cursor_text {World} _.
Arguments load {World} _ _.
Arguments visit {World} _ _ _ _ _ _.
Arguments evaluate {World} _ _ _ _ _ _.
Arguments swarm_schedule_sensor {World} _ _ _ _ _ _.
Arguments visited {World} _ _ _ _ _ _ _ _.
Arguments init {World} _ _.
Arguments tick {World} _ _ _ _ _ _ _.
Arguments pruned_ledger {World} _ _ _ _.
Arguments outgoing_ledger {World} _ _ _ _ _ _.

(** ** Vocabulary of the statements *)

Definition is_run (c : api_call) : bool :=
  match c with
  | RunSwarm _ _ => true
  | GetSwarms _ => false
  end.

Definition is_run_of (i : string) (c : api_call) : bool :=
  match c with
  | RunSwarm j _ => (j =? i)%string
  | GetSwarms _ => false
  end.

(** How many trigger calls were issued for the swarm [i]. *)
Definition count_runs (i : string) (cs : list api_call) : nat :=
  List.length (filter (is_run_of i) cs).

Definition run_failed (c : api_call) : bool :=
  match c with
  | RunSwarm _ (Raise _) => true
  | _ => false
  end.

(** Every trigger call in [cs] succeeded. *)
Definition runs_ok (cs : list api_call) : bool :=
  forallb (fun c => negb (run_failed c)) cs.

(** Some swarm of the list with identifier [i] is due at [now]. *)
Definition due_id (now : datetime) (i : string) (swarms : list swarm) : bool :=
  existsb (fun sw => due now sw && (id sw =? i)%string) swarms.

(** An entry a pass may add to the ledger: a key of the slot for a due
    swarm of the list, marked [True]. *)
Definition fresh_mark (now : datetime) (slot : string)
    (swarms : list swarm) (kv : string * json) : Prop :=
  snd kv = JBool true
  /\ exists sw, In sw swarms /\ due now sw = true
                /\ fst kv = dedup_key slot (id sw).

(** Two instants of the same minute. *)
Definition same_minute (a b : datetime) : Prop :=
  year a = year b /\ month a = month b /\ day a = day b
  /\ hour a = hour b /\ minute a = minute b.

(** ** A small environment to run the sensor in

    The API answers from a script: the registry listing is fixed and the
    trigger calls take their results from a queue (success once the queue
    is empty).  The codec writes and reads ledgers of plain keys marked
    [true], the only cursors the sensor itself produces. *)

Definition script : Type := list (result string).

Definition scripted_get_swarms (registry : result (list swarm))
  : script -> result (list swarm) * script :=
  fun w => (registry, w).

Definition scripted_run_swarm (swarm_id : string)
  : script -> result string * script :=
  fun w => match w with
           | r :: w' => (r, w')
           | [] => (Ok "{}", [])
           end.

Definition quote : string := String (ascii_of_nat 34) "".

Fixpoint join (sep : string) (xs : list string) : string :=
  match xs with
  | [] => ""
  | [x] => x
  | x :: xs' => x ++ sep ++ join sep xs'
  end.

Definition ledger_dumps (d : dict) : string :=
  "{" ++ join ", " (map (fun kv => quote ++ fst kv ++ quote ++ ": true") d)
  ++ "}".

Fixpoint drop_prefix (p s : string) : option string :=
  match p, s with
  | EmptyString, _ => Some s
  | String a p', String b s' =>
      if (a =? b)%char then drop_prefix p' s' else None
  | String _ _, EmptyString => None
  end.

(** The characters up to the next quote, and what follows it. *)
Fixpoint read_key (s : string) : option (string * string) :=
  match s with
  | EmptyString => None
  | String c s' =>
      if (c =? ascii_of_nat 34)%char then Some ("", s')
      else match read_key s' with
           | Some (k, rest) => Some (String c k, rest)
           | None => None
           end
  end.

Fixpoint read_members (fuel : nat) (s : string) : option dict :=
  match fuel with
  | O => None
  | S fuel' =>
      match drop_prefix quote s with
      | None => None
      | Some s1 =>
          match read_key s1 with
          | None => None
          | Some (k, s2) =>
              match drop_prefix ": true" s2 with
              | None => None
              | Some s3 =>
                  if (s3 =? "}")%string then Some [(k, JBool true)]
                  else match drop_prefix ", " s3 with
                       | None => None
                       | Some s4 =>
                           match read_members fuel' s4 with
                           | Some d => Some ((k, JBool true) :: d)
                           | None => None
                           end
                       end
              end
          end
      end
  end.

Definition ledger_loads (s : string) : result json :=
  if (s =? "{}")%string then Ok (JObject [])
  else match drop_prefix "{" s with
       | Some s1 =>
           match read_members (String.length s) s1 with
           | Some d => Ok (JObject d)
           | None => Raise (Exn JSONDecodeError "Expecting value")
           end
       | None => Raise (Exn JSONDecodeError "Expecting value")
       end.

(** The sensor in that environment. *)
Definition scripted_tick (registry : result (list swarm))
    (now : datetime) (c : option string) (w : script)
  : result sensor_result * machine script :=
  tick (scripted_get_swarms registry) scripted_run_swarm
    ledger_loads ledger_dumps now c w.

Definition monday_0900 : datetime := DateTime 2024 1 15 9 0 0.
Definition monday_0900_later : datetime := DateTime 2024 1 15 9 0 42.

Definition swarm_a : swarm := Swarm "a" (Some "Alpha") None (Some "daily") None.
Definition swarm_b : swarm := Swarm "b" (Some "Beta") None (Some "weekly") None.

Definition timed_out : exn := Exn OSError "timed out".

Definition http_500 : exn :=
  Exn RuntimeError "API error running swarm a: 500 - ".

(** ** The API resource ([resources.py]) *)

(** [str(n)] for an integer. *)
Definition str_int (n : Z) : string := NilZero.string_of_int (Z.to_int n).

(** [j.get(k, default)] *)
Definition get_or (k : string) (default : json) (j : json) : result json :=
  match j with
  | JObject members =>
      Ok (match lookup k members with Some v => v | None => default end)
  | _ => Raise (Exn AttributeError "object has no attribute 'get'")
  end.

(** A [urllib.request.Request] and the timeout it is opened with. *)
Record request : Type := Request {
  url : string;
  method : string;
  data : option string;
  request_headers : list (string * string);
  timeout : Z
}.

(** What opening a request and reading the answer gives: the bytes of a
    response, the status and the bytes of an [HTTPError], or any other
    exception. *)
Inductive answer : Type :=
| Responded (body : string)
| HTTPError (code : Z) (body : string)
| Failed (e : exn).

Module ObservatoryApiResource.

Record resource : Type := Resource {
  api_url : string;
  cf_access_client_id : string;
  cf_access_client_secret : string
}.

Definition default_api_url : string :=
  "https://llm-observatory.emily-cogsdill.workers.dev".

Definition user_agent : string :=
  "Mozilla/5.0 (Windows NT 10.0; Win64; x64) AppleWebKit/537.36 (KHTML, like Gecko) Chrome/120.0.0.0 Safari/537.36".

(** [_headers] *)
Definition headers (self : resource) : list (string * string) :=
  [ ("Accept", "application/json");
    ("Content-Type", "application/json");
    ("User-Agent", user_agent);
    ("CF-Access-Client-Id", cf_access_client_id self);
    ("CF-Access-Client-Secret", cf_access_client_secret self) ].

Definition get_swarms_request (self : resource) : request :=
  {| url := api_url self ++ "/api/swarms";
     method := "GET";
     data := None;
     request_headers := headers self;
     timeout := 30 |}.

Definition run_swarm_request (self : resource) (swarm_id : string)
  : request :=
  {| url := api_url self ++ "/api/admin/swarms/" ++ swarm_id ++ "/run";
     method := "POST";
     data := Some "{}";
     request_headers := headers self;
     timeout := 120 |}.

Section Calls.

(** The network, [urlopen] with the reading of the answer, [bytes.decode]
    and [json.loads]. *)
Variable Net : Type.
Variable urlopen : request -> Net -> answer * Net.
Variable decode : string -> result string.
Variable json_loads : string -> result json.

Definition get_swarms (self : resource) (w : Net) : result json * Net :=
  match urlopen (get_swarms_request self) w with
  | (Responded body, w') =>
      (text <- decode body ;;
       data <- json_loads text ;;
       get_or "swarms" (JArray []) data, w')
  | (HTTPError code body, w') =>
      (text <- decode body ;;
       Raise (Exn RuntimeError
                ("API error fetching swarms: " ++ str_int code
                 ++ " - " ++ text)), w')
  | (Failed e, w') => (Raise e, w')
  end.

Definition run_swarm (self : resource) (swarm_id : string) (w : Net)
  : result json * Net :=
  match urlopen (run_swarm_request self swarm_id) w with
  | (Responded body, w') =>
      (text <- decode body ;; json_loads text, w')
  | (HTTPError code body, w') =>
      (error_body <- decode body ;;
       Raise (Exn RuntimeError
                ("API error running swarm " ++ swarm_id ++ ": "
                 ++ str_int code ++ " - " ++ error_body)), w')
  | (Failed e, w') => (Raise e, w')
  end.

(** The resource as the sensor calls it.  [read_swarms] gives the
    records of a listing that is a list of records, as [swarm.get] reads
    them, and [show] the text of a decoded response.  A listing of
    another shape has no reading: the code then raises where it iterates
    the listing or reads a record ([TypeError], [AttributeError]),
    outside the [try] around the call, and [listing] gives [None]. *)
Variable read_swarms : json -> option (list swarm).
Variable show : json -> string.

Definition listing (self : resource) (w : Net)
  : option (result (list swarm) * Net) :=
  match get_swarms self w with
  | (Ok j, w') =>
      match read_swarms j with
      | Some records => Some (Ok records, w')
      | None => None
      end
  | (Raise e, w') => Some (Raise e, w')
  end.

Definition trigger (self : resource) (swarm_id : string) (w : Net)
  : result string * Net :=
  match run_swarm self swarm_id w with
  | (Ok j, w') => (Ok (show j), w')
  | (Raise e, w') => (Raise e, w')
  end.

End Calls.

End ObservatoryApiResource.

(** A network that gives one fixed answer, and the identity for
    [bytes.decode]. *)
Definition fixed_net (a : answer) : request -> unit -> answer * unit :=
  fun _ w => (a, w).

Definition ascii_decode (b : string) : result string := Ok b.

(** The reading of the empty listing, and of no other. *)
Definition no_records (j : json) : option (list swarm) :=
  match j with
  | JArray [] => Some []
  | _ => None
  end.

(** A listing call that gives one fixed result. *)
Definition fixed_listing (r : result (list swarm))
  : unit -> result (list swarm) * unit :=
  fun w => (r, w).

Definition http_503 : exn :=
  Exn RuntimeError "API error fetching swarms: 503 - down".

Definition no_text (j : json) : string := "".

Definition the_resource : ObservatoryApiResource.resource :=
  ObservatoryApiResource.Resource ObservatoryApiResource.default_api_url
    "client-id" "client-secret".

(** The same codec, reading the empty array as well. *)
Definition array_or_ledger_loads (s : string) : result json :=
  if (s =? "[]")%string then Ok (JArray []) else ledger_loads s.

(** A cursor with a key of the day before, a key of 08:00 and the key of
    [swarm_a] for 09:00. *)
Definition held_three : string :=
  ledger_dumps [ ("2024-01-14-09-00:a", JBool true);
                 ("2024-01-15-08-00:z", JBool true);
                 ("2024-01-15-09-00:a", JBool true) ].

(** The cursor that holds the key of [swarm_a] for 09:00. *)
Definition held_a : string :=
  ledger_dumps [(dedup_key (strftime_minute monday_0900) "a", JBool true)].

Definition swarm_bad : swarm :=
  Swarm "c" None None (Some "custom") (Some "a * * * *").

(** ** Dates *)

Definition days_in_month (y m : Z) : Z :=
  if m =? 2 then (if is_leap y then 29 else 28)
  else if (m =? 4) || (m =? 6) || (m =? 9) || (m =? 11) then 30 else 31.

(** The instants [strftime] is embedded for: what [datetime] accepts, of
    a year of four digits. *)
Definition valid_datetime (dt : datetime) : bool :=
  (1000 <=? year dt) && (year dt <=? 9999)
  && (1 <=? month dt) && (month dt <=? 12)
  && (1 <=? day dt) && (day dt <=? days_in_month (year dt) (month dt))
  && (0 <=? hour dt) && (hour dt <=? 23)
  && (0 <=? minute dt) && (minute dt <=? 59)
  && (0 <=? second dt) && (second dt <=? 59).

(** The slot of an instant as the specification writes it,
    [YYYY-MM-DD-HH-mm]: the decimal numerals of the year, the month, the
    day, the hour and the minute, the first on four digits and the others
    on two, with zeros in front where the numeral is shorter. *)
Fixpoint zeros (k : nat) : string :=
  match k with
  | O => ""
  | S k' => String "0" (zeros k')
  end.

Definition numeral (width : nat) (n : Z) : string :=
  zeros (width - String.length (str_int n)) ++ str_int n.

Definition slot_text (dt : datetime) : string :=
  numeral 4 (year dt) ++ "-" ++ numeral 2 (month dt) ++ "-"
  ++ numeral 2 (day dt) ++ "-" ++ numeral 2 (hour dt) ++ "-"
  ++ numeral 2 (minute dt).

(** The order of two instants by their dates. *)
Definition date_compare (a b : datetime) : comparison :=
  match year a ?= year b with
  | Eq => match month a ?= month b with
          | Eq => day a ?= day b
          | c => c
          end
  | c => c
  end.

(** How many trigger calls for the swarm [i] succeeded. *)
Definition is_ok_run_of (i : string) (c : api_call) : bool :=
  match c with
  | RunSwarm j (Ok _) => (j =? i)%string
  | _ => false
  end.

Definition count_ok (i : string) (cs : list api_call) : nat :=
  List.length (filter (is_ok_run_of i) cs).

(** ** The rules the matcher is specified by *)

(** An item of a comma list: a token that is not itself a step, a range
    or a list, with the integer it is the numeral of. *)
Definition list_item (item : string * Z) : Prop :=
  contains "/" (fst item) = false /\ contains "-" (fst item) = false
  /\ contains "," (fst item) = false /\ py_int (fst item) = Ok (snd item).

(** [field_rule v f b]: the field [f] is of one of the five forms and the
    rule of its form gives [b] at the component value [v].  A comma list
    is given by its items: the field is their tokens with a comma between
    each two, and it matches when [v] is the integer of one of them. *)
Inductive field_rule (v : Z) : string -> bool -> Prop :=
| rule_star : field_rule v "*" true
| rule_step base step n :
    contains "/" base = false -> contains "/" step = false ->
    py_int step = Ok n -> n <> 0 \/ base <> "*" ->
    field_rule v (base ++ "/" ++ step) ((base =? "*")%string && (v mod n =? 0))
| rule_range lo hi a b :
    contains "/" lo = false -> contains "/" hi = false ->
    contains "-" lo = false -> contains "-" hi = false ->
    py_int lo = Ok a -> py_int hi = Ok b ->
    field_rule v (lo ++ "-" ++ hi) ((a <=? v) && (v <=? b))
| rule_list items :
    (2 <= List.length items)%nat ->
    Forall list_item items ->
    field_rule v (join "," (map fst items))
      (existsb (fun item => v =? snd item) items)
| rule_plain f n :
    f <> "*" ->
    contains "/" f = false -> contains "-" f = false ->
    contains "," f = false ->
    py_int f = Ok n ->
    field_rule v f (v =? n).

Inductive day_name : Type :=
| Monday | Tuesday | Wednesday | Thursday | Friday | Saturday | Sunday.

(** Python: Monday is 0. *)
Definition python_number (d : day_name) : Z :=
  match d with
  | Monday => 0 | Tuesday => 1 | Wednesday => 2 | Thursday => 3
  | Friday => 4 | Saturday => 5 | Sunday => 6
  end.

(** Cron: Sunday is 0. *)
Definition cron_number (d : day_name) : Z :=
  match d with
  | Sunday => 0 | Monday => 1 | Tuesday => 2 | Wednesday => 3
  | Thursday => 4 | Friday => 5 | Saturday => 6
  end.

(** * Properties *)

(** ** Strings *)

Lemma contains_app c a b :
  contains c (a ++ b) = contains c a || contains c b.
Proof.
  induction a as [|x a IH]; simpl; [reflexivity|].
  rewrite IH. now rewrite orb_assoc.
Qed.

Lemma split_on_absent c s : contains c s = false -> split_on c s = [s].
Proof.
  induction s as [|x s IH]; simpl; [reflexivity|].
  intros H. apply orb_false_iff in H as [Hx Hs].
  rewrite Hx, (IH Hs). reflexivity.
Qed.

Lemma split_on_app c a b :
  contains c a = false ->
  split_on c (a ++ String c b) = a :: split_on c b.
Proof.
  induction a as [|x a IH]; simpl; intros H.
  - now rewrite Ascii.eqb_refl.
  - apply orb_false_iff in H as [Hx Ha].
    rewrite Hx, (IH Ha). reflexivity.
Qed.

Lemma split_on_two c a b :
  contains c a = false -> contains c b = false ->
  split_on c (a ++ String c b) = [a; b].
Proof.
  intros Ha Hb. rewrite (split_on_app _ _ _ Ha), (split_on_absent _ _ Hb).
  reflexivity.
Qed.

Lemma contains_sep c a b : contains c (a ++ String c b) = true.
Proof.
  rewrite contains_app. simpl. rewrite Ascii.eqb_refl, orb_true_r.
  reflexivity.
Qed.

Lemma contains_not_star c s :
  c <> "*"%char -> contains c s = true -> (s =? "*")%string = false.
Proof.
  intros Hc H. apply String.eqb_neq. intros ->. cbn [contains] in H.
  rewrite orb_false_r in H. apply Ascii.eqb_eq in H. congruence.
Qed.

Lemma join_cons sep x y ys :
  join sep (x :: y :: ys) = x ++ sep ++ join sep (y :: ys).
Proof. reflexivity. Qed.

(** Splitting at the commas gives back the tokens that were joined. *)
Lemma split_on_join c ts : forall t,
  Forall (fun x => contains c x = false) (t :: ts) ->
  split_on c (join (String c "") (t :: ts)) = t :: ts.
Proof.
  induction ts as [|u ts IH]; intros t H.
  - apply split_on_absent. now inversion H.
  - rewrite join_cons. inversion H as [|? ? Ht Hrest]; subst.
    change (t ++ String c "" ++ join (String c "") (u :: ts))
      with (t ++ String c (join (String c "") (u :: ts))).
    rewrite (split_on_app _ _ _ Ht). f_equal. now apply IH.
Qed.

Lemma contains_join c sep ts :
  contains c sep = false ->
  Forall (fun x => contains c x = false) ts ->
  contains c (join sep ts) = false.
Proof.
  intros Hsep H. induction H as [|t ts Ht Hts IH]; [reflexivity|].
  destruct ts as [|u ts]; [exact Ht|].
  rewrite join_cons, !contains_app, Ht, Hsep. exact IH.
Qed.

(** ** The cron matcher *)

Lemma map_int_items items :
  Forall list_item items -> map_int (map fst items) = Ok (map snd items).
Proof.
  induction 1 as [|[t n] items (_ & _ & _ & Hn) _ IH]; [reflexivity|].
  simpl in *. now rewrite Hn, IH.
Qed.

Lemma and_then_ok a b : and_then (Ok a) (Ok b) = Ok (a && b).
Proof. now destruct a. Qed.

Lemma matches_field_sound v f b :
  field_rule v f b -> matches_field f v = Ok b.
Proof.
  intros R. unfold matches_field. destruct R as
    [ | base step n Hb Hs Hn Hz | lo hi a b Hl1 Hh1 Hl2 Hh2 Ha Hb
    | items Hlen Hitems | f n Hstar H1 H2 H3 Hn ].
  - reflexivity.
  - change (base ++ "/" ++ step) with (base ++ String "/" step).
    rewrite (contains_not_star "/" _ ltac:(discriminate) (contains_sep _ _ _)).
    rewrite contains_sep, (split_on_two _ _ _ Hb Hs), Hn. simpl.
    destruct (String.eqb_spec base "*") as [->|Hne]; simpl; [|reflexivity].
    destruct Hz as [Hz|Hz]; [|congruence].
    apply Z.eqb_neq in Hz. now rewrite Hz.
  - change (lo ++ "-" ++ hi) with (lo ++ String "-" hi).
    rewrite (contains_not_star "-" _ ltac:(discriminate) (contains_sep _ _ _)).
    assert (Hno : contains "/" (lo ++ String "-" hi) = false).
    { rewrite contains_app. simpl. now rewrite Hl1, Hh1. }
    rewrite Hno, contains_sep, (split_on_two _ _ _ Hl2 Hh2), Ha. simpl.
    now rewrite Hb.
  - destruct items as [|[t n] [|[u k] items]]; simpl in Hlen; try lia.
    set (f := join "," (map fst ((t, n) :: (u, k) :: items))).
    assert (H3 : contains "," f = true).
    { unfold f. cbn [map fst]. rewrite join_cons.
      apply (contains_sep "," t). }
    assert (H1 : contains "/" f = false).
    { apply contains_join; [reflexivity|]. apply Forall_map.
      eapply Forall_impl; [|exact Hitems]. now intros item (H & _). }
    assert (H2 : contains "-" f = false).
    { apply contains_join; [reflexivity|]. apply Forall_map.
      eapply Forall_impl; [|exact Hitems]. now intros item (_ & H & _). }
    assert (Hsplit : split_on "," f = map fst ((t, n) :: (u, k) :: items)).
    { apply (split_on_join "," (map fst ((u, k) :: items)) t).
      change (t :: map fst ((u, k) :: items))
        with (map fst ((t, n) :: (u, k) :: items)).
      apply Forall_map. eapply Forall_impl; [|exact Hitems].
      now intros item (_ & _ & H & _). }
    rewrite (contains_not_star "," _ ltac:(discriminate) H3).
    rewrite H1, H2, H3, Hsplit, (map_int_items _ Hitems).
    cbn [bind]. f_equal. generalize ((t, n) :: (u, k) :: items).
    intros l. induction l as [|x l IH]; [reflexivity|].
    cbn [map existsb]. now rewrite IH.
  - apply String.eqb_neq in Hstar. rewrite Hstar, H1, H2, H3, Hn.
    reflexivity.
Qed.

Lemma cron_matches_five e dt f1 f2 f3 f4 f5 :
  split (strip e) = [f1; f2; f3; f4; f5] ->
  cron_matches e dt =
    and_then (matches_field f1 (minute dt))
      (and_then (matches_field f2 (hour dt))
         (and_then (matches_field f3 (day dt))
            (and_then (matches_field f4 (month dt))
               (matches_field f5 (cron_weekday dt))))).
Proof. intros H. unfold cron_matches. now rewrite H. Qed.

Lemma cron_matches_rules e dt f1 f2 f3 f4 f5 b1 b2 b3 b4 b5 :
  split (strip e) = [f1; f2; f3; f4; f5] ->
  field_rule (minute dt) f1 b1 ->
  field_rule (hour dt) f2 b2 ->
  field_rule (day dt) f3 b3 ->
  field_rule (month dt) f4 b4 ->
  field_rule (cron_weekday dt) f5 b5 ->
  cron_matches e dt = Ok (b1 && (b2 && (b3 && (b4 && b5)))).
Proof.
  intros H R1 R2 R3 R4 R5. rewrite (cron_matches_five _ _ _ _ _ _ _ H).
  rewrite (matches_field_sound _ _ _ R1), (matches_field_sound _ _ _ R2),
    (matches_field_sound _ _ _ R3), (matches_field_sound _ _ _ R4),
    (matches_field_sound _ _ _ R5).
  now rewrite !and_then_ok.
Qed.

Lemma every_quarter dt :
  cron_matches "*/15 * * * *" dt = Ok (minute dt mod 15 =? 0).
Proof.
  rewrite (cron_matches_rules _ dt "*/15" "*" "*" "*" "*"
             (("*" =? "*")%string && (minute dt mod 15 =? 0))
             true true true true).
  - simpl. now rewrite andb_true_r.
  - reflexivity.
  - apply (rule_step _ "*" "15" 15); try reflexivity. left. discriminate.
  - constructor.
  - constructor.
  - constructor.
  - constructor.
Qed.

(** C5. Cron field semantics: a field of one of the five forms ([*],
    [base/step], [a-b], a comma list, a plain integer) is checked by the
    rule of its form, on an expression of five fields the match is the
    conjunction of the five field checks, and ["*/15 * * * *"] matches
    exactly the minutes 0, 15, 30 and 45. *)
Theorem cron_field_semantics :
  (forall v f b, field_rule v f b -> matches_field f v = Ok b)
  /\ (forall e dt f1 f2 f3 f4 f5 b1 b2 b3 b4 b5,
      split (strip e) = [f1; f2; f3; f4; f5] ->
      field_rule (minute dt) f1 b1 ->
      field_rule (hour dt) f2 b2 ->
      field_rule (day dt) f3 b3 ->
      field_rule (month dt) f4 b4 ->
      field_rule (cron_weekday dt) f5 b5 ->
        cron_matches e dt = Ok (b1 && (b2 && (b3 && (b4 && b5)))))
  /\ (forall dt, 0 <= minute dt <= 59 ->
        (cron_matches "*/15 * * * *" dt = Ok true
           <-> minute dt = 0 \/ minute dt = 15
               \/ minute dt = 30 \/ minute dt = 45)
        /\ (cron_matches "*/15 * * * *" dt = Ok false
              <-> ~ (minute dt = 0 \/ minute dt = 15
                     \/ minute dt = 30 \/ minute dt = 45))).
Proof.
  split; [exact matches_field_sound|]. split.
  - intros. eapply cron_matches_rules; eassumption.
  - intros dt Hm. rewrite every_quarter.
    destruct (Z.eqb_spec (minute dt mod 15) 0) as [H|H].
    + assert (Hq : minute dt = 0 \/ minute dt = 15
                   \/ minute dt = 30 \/ minute dt = 45).
      { pose proof (Z.div_mod (minute dt) 15 ltac:(lia)) as D.
        rewrite H in D.
        assert (0 <= minute dt / 15 <= 3) by
          (split; [apply Z.div_pos; lia
                  | apply Z.lt_succ_r, Z.div_lt_upper_bound; lia]).
        lia. }
      split; split; intros; try assumption; try reflexivity;
        try discriminate; tauto.
    + split; split; intros Hx; try discriminate; try reflexivity.
      * exfalso. apply H.
        destruct Hx as [-> | [-> | [-> | ->]]]; reflexivity.
      * intros [E | [E | [E | E]]]; apply H; rewrite E; reflexivity.
Qed.

Lemma cron_field_semantics_witness :
  cron_matches "*/15 9-17 * 1,6,12 1" (DateTime 2024 6 17 9 30 0) = Ok true
  /\ matches_field "1,6,12" 7 = Ok false
  /\ (cron_matches "*/15 * * * *" (DateTime 2024 6 17 9 30 0) = Ok true
        <-> 30 = 0 \/ 30 = 15 \/ 30 = 30 \/ 30 = 45).
Proof.
  assert (Items : Forall list_item [("1", 1); ("6", 6); ("12", 12)])
    by (repeat constructor).
  split; [|split].
  - apply (proj1 (proj2 cron_field_semantics) "*/15 9-17 * 1,6,12 1"
             (DateTime 2024 6 17 9 30 0) "*/15" "9-17" "*" "1,6,12" "1"
             true true true true true).
    + reflexivity.
    + apply (rule_step 30 "*" "15" 15); try reflexivity. left. lia.
    + apply (rule_range 9 "9" "17" 9 17); reflexivity.
    + apply rule_star.
    + apply (rule_list 6 [("1", 1); ("6", 6); ("12", 12)]);
        [simpl; lia | exact Items].
    + apply (rule_plain 1 "1" 1); try reflexivity. discriminate.
  - apply (proj1 cron_field_semantics 7 "1,6,12" false).
    apply (rule_list 7 [("1", 1); ("6", 6); ("12", 12)]);
      [simpl; lia | exact Items].
  - apply (proj2 (proj2 cron_field_semantics) (DateTime 2024 6 17 9 30 0)).
    simpl. lia.
Defined.

(** C2. The matcher at expressions of five fields of which one is not of a
    supported form: [int()] raises [ValueError] on a token that is not a
    number and on the combined form ["1,15-20"], and a zero step raises
    [ZeroDivisionError]; the exception leaves [cron_matches]. *)
Theorem cron_matches_raises dt :
  raises_class ValueError (cron_matches "a * * * *" dt)
  /\ raises_class ValueError (cron_matches "1,15-20 * * * *" dt)
  /\ raises_class ZeroDivisionError (cron_matches "*/0 * * * *" dt).
Proof.
  repeat split; eexists; reflexivity.
Qed.

(** The guard on the number of fields does return [False]. *)
Lemma cron_matches_field_count e dt :
  List.length (split (strip e)) <> 5%nat -> cron_matches e dt = Ok false.
Proof.
  unfold cron_matches.
  destruct (split (strip e)) as [|f1 [|f2 [|f3 [|f4 [|f5 [|f6 l]]]]]];
    simpl; intros H; try reflexivity.
  now contradiction H.
Qed.

(** ** The weekday *)

Lemma weekday_cases dt :
  exists d, weekday dt = python_number d /\ cron_weekday dt = cron_number d.
Proof.
  unfold cron_weekday.
  assert (H : 0 <= weekday dt < 7) by (apply Z.mod_pos_bound; lia).
  assert (C : weekday dt = 0 \/ weekday dt = 1 \/ weekday dt = 2
              \/ weekday dt = 3 \/ weekday dt = 4 \/ weekday dt = 5
              \/ weekday dt = 6) by lia.
  destruct C as [E | [E | [E | [E | [E | [E | E]]]]]]; rewrite E;
    [ exists Monday | exists Tuesday | exists Wednesday | exists Thursday
    | exists Friday | exists Saturday | exists Sunday ];
    split; reflexivity.
Qed.

Lemma python_number_inj d d' : python_number d = python_number d' -> d = d'.
Proof. destruct d, d'; simpl; intros H; try reflexivity; discriminate. Qed.

Lemma cron_number_inj d d' : cron_number d = cron_number d' -> d = d'.
Proof. destruct d, d'; simpl; intros H; try reflexivity; discriminate. Qed.

Lemma weekday_conversion dt d :
  weekday dt = python_number d <-> cron_weekday dt = cron_number d.
Proof.
  destruct (weekday_cases dt) as [d0 [H1 H2]]. rewrite H1, H2. split; intros H.
  - now rewrite (python_number_inj _ _ H).
  - now rewrite (cron_number_inj _ _ H).
Qed.

Lemma monday_nine dt :
  cron_matches "0 9 * * 1" dt
  = Ok ((minute dt =? 0) && ((hour dt =? 9) && (cron_weekday dt =? 1))).
Proof.
  rewrite (cron_matches_rules _ dt "0" "9" "*" "*" "1"
             (minute dt =? 0) (hour dt =? 9) true true
             (cron_weekday dt =? 1)).
  - reflexivity.
  - reflexivity.
  - apply rule_plain; try reflexivity. discriminate.
  - apply rule_plain; try reflexivity. discriminate.
  - constructor.
  - constructor.
  - apply rule_plain; try reflexivity. discriminate.
Qed.

(** C6. The day of week handed to the matcher is Python's weekday turned
    into the cron numbering, 0 for Sunday to 6 for Saturday; ["0 9 * * 1"]
    matches a Monday at 09:00 and no Tuesday. *)
Theorem weekday_convention :
  (forall dt, exists d,
      weekday dt = python_number d /\ cron_weekday dt = cron_number d)
  /\ (forall dt d,
        weekday dt = python_number d <-> cron_weekday dt = cron_number d)
  /\ (forall dt, minute dt = 0 -> hour dt = 9 ->
        weekday dt = python_number Monday ->
        cron_matches "0 9 * * 1" dt = Ok true)
  /\ (forall dt, weekday dt = python_number Tuesday ->
        cron_matches "0 9 * * 1" dt = Ok false)
  /\ weekday (DateTime 2024 1 15 9 0 0) = python_number Monday
  /\ weekday (DateTime 2024 1 16 9 0 0) = python_number Tuesday.
Proof.
  split; [exact weekday_cases|].
  split; [exact weekday_conversion|].
  split; [|split; [|split; reflexivity]].
  - intros dt Hm Hh Hd. apply weekday_conversion in Hd.
    rewrite monday_nine, Hm, Hh, Hd. reflexivity.
  - intros dt Hd. apply weekday_conversion in Hd.
    rewrite monday_nine, Hd. simpl. now rewrite !andb_false_r.
Qed.

Lemma weekday_convention_witness :
  cron_matches "0 9 * * 1" (DateTime 2024 1 15 9 0 0) = Ok true
  /\ cron_matches "0 9 * * 1" (DateTime 2024 1 16 9 0 0) = Ok false.
Proof.
  destruct weekday_convention as (_ & _ & Hmon & Htue & _ & _).
  split.
  - apply Hmon; reflexivity.
  - apply Htue; reflexivity.
Defined.

(** ** The schedule resolver *)

Lemma truthy_false o : truthy o = false <-> o = None \/ o = Some "".
Proof.
  destruct o as [s|]; simpl.
  - destruct (String.eqb_spec s ""); simpl; split; intros H;
      try discriminate; try subst; auto.
    destruct H as [H|H]; [discriminate | congruence].
  - split; auto.
Qed.

Lemma truthy_true o : truthy o = true <-> exists s, o = Some s /\ s <> "".
Proof.
  destruct o as [s|]; simpl.
  - destruct (String.eqb_spec s ""); simpl; split; intros H;
      try discriminate; eauto.
    destruct H as [s' [E N]]. congruence.
  - split; [discriminate | intros [s [E _]]; discriminate].
Qed.

(** C7, as the code has it.  The resolver returns null when
    [schedule_type] is absent, null or empty; otherwise it returns
    [cron_expression] verbatim when one is present and not empty,
    whatever the type; otherwise the default of the type (daily, weekly,
    monthly), and null for a type outside that table. *)
Theorem effective_cron_resolution sw :
  (schedule_type sw = None \/ schedule_type sw = Some "" ->
   get_effective_cron sw = None)
  /\ (forall ty c,
        schedule_type sw = Some ty -> ty <> "" ->
        cron_expression sw = Some c -> c <> "" ->
        get_effective_cron sw = Some c)
  /\ (forall ty,
        schedule_type sw = Some ty ->
        cron_expression sw = None \/ cron_expression sw = Some "" ->
        (ty = "daily" -> get_effective_cron sw = Some "0 9 * * *")
        /\ (ty = "weekly" -> get_effective_cron sw = Some "0 9 * * 1")
        /\ (ty = "monthly" -> get_effective_cron sw = Some "0 9 1 * *")
        /\ (ty <> "daily" -> ty <> "weekly" -> ty <> "monthly" ->
            get_effective_cron sw = None)).
Proof.
  unfold get_effective_cron. split; [|split].
  - intros H. apply truthy_false in H. now rewrite H.
  - intros ty c Hty Hne Hc Hcne.
    assert (T1 : truthy (schedule_type sw) = true)
      by (apply truthy_true; eauto).
    assert (T2 : truthy (cron_expression sw) = true)
      by (apply truthy_true; eauto).
    now rewrite T1, T2.
  - intros ty Hty Hc. apply truthy_false in Hc. rewrite Hc, Hty.
    repeat split.
    + now intros ->.
    + now intros ->.
    + now intros ->.
    + intros N1 N2 N3.
      destruct (truthy (Some ty)); cbn [negb]; [|reflexivity].
      apply String.eqb_neq in N1, N2, N3.
      rewrite String.eqb_sym in N1. rewrite String.eqb_sym in N2.
      rewrite String.eqb_sym in N3.
      unfold defaults. cbn [lookup]. now rewrite N1, N2, N3.
Qed.

Lemma effective_cron_resolution_witness :
  get_effective_cron
    (Swarm "s1" None None (Some "custom") (Some "*/5 * * * *"))
  = Some "*/5 * * * *"
  /\ get_effective_cron (Swarm "s2" None None (Some "weekly") None)
     = Some "0 9 * * 1"
  /\ get_effective_cron (Swarm "s3" None None None (Some "* * * * *"))
     = None.
Proof.
  split; [|split].
  - apply (proj1 (proj2 (effective_cron_resolution
                           (Swarm "s1" None None (Some "custom")
                              (Some "*/5 * * * *")))) "custom");
      try reflexivity; discriminate.
  - apply (proj2 (proj2 (effective_cron_resolution
                           (Swarm "s2" None None (Some "weekly") None)))
             "weekly"); try reflexivity. now left.
  - apply (proj1 (effective_cron_resolution
                    (Swarm "s3" None None None (Some "* * * * *")))).
    now left.
Defined.

(** C7 as stated fails: an empty [cron_expression] is present in the
    record and is not what the resolver returns. *)
Lemma effective_cron_empty_expression :
  ~ (forall sw c,
        schedule_type sw <> None -> cron_expression sw = Some c ->
        get_effective_cron sw = Some c).
Proof.
  intros H.
  specialize (H (Swarm "s" None None (Some "daily") (Some "")) ""
                ltac:(discriminate) eq_refl).
  discriminate H.
Qed.

(** ** Pruning *)

Lemma length_pad2 n : String.length (pad2 n) = 2%nat.
Proof. reflexivity. Qed.

Lemma append_assoc (a b c : string) : (a ++ b) ++ c = a ++ (b ++ c).
Proof. induction a as [|x a IH]; simpl; congruence. Qed.

Lemma append_nil_r (a : string) : a ++ "" = a.
Proof. induction a as [|x a IH]; simpl; congruence. Qed.

Lemma length_app a b :
  String.length (a ++ b) = (String.length a + String.length b)%nat.
Proof. induction a as [|c a IH]; simpl; congruence. Qed.

Lemma length_strftime_date dt : String.length (strftime_date dt) = 10%nat.
Proof.
  unfold strftime_date, pad4. now rewrite !length_app, !length_pad2.
Qed.

Lemma substring_app_exact a b :
  substring 0 (String.length a) (a ++ b) = a.
Proof. induction a as [|c a IH]; simpl; [now destruct b | now rewrite IH]. Qed.

Lemma slice_cutoff dt : slice_to 10 (strftime_hour dt) = strftime_date dt.
Proof.
  unfold slice_to, strftime_hour.
  rewrite <- (length_strftime_date dt) at 1. apply substring_app_exact.
Qed.

Lemma ascii_compare_refl c : Ascii.compare c c = Eq.
Proof. unfold Ascii.compare. apply N.compare_refl. Qed.

Lemma compare_app_gt d r : r <> "" -> String.compare (d ++ r) d = Gt.
Proof.
  intros Hr. induction d as [|c d IH]; simpl.
  - destruct r; [contradiction | reflexivity].
  - now rewrite ascii_compare_refl.
Qed.

Lemma compare_refl s : String.compare s s = Eq.
Proof.
  induction s as [|c s IH]; simpl; [reflexivity|].
  now rewrite ascii_compare_refl.
Qed.

Lemma prefix_split p k : prefix p k = true -> exists r, k = p ++ r.
Proof.
  revert k. induction p as [|c p IH]; intros k H.
  - now exists k.
  - destruct k as [|c' k]; simpl in H; [discriminate|].
    destruct (ascii_dec c c') as [->|]; [|discriminate].
    destruct (IH _ H) as [r ->]. now exists r.
Qed.

(** The first disjunct of the retention test is subsumed by the second. *)
Lemma keep_is_date_comparison now k :
  keep (strftime_hour now) k = str_gt k (strftime_date now).
Proof.
  unfold keep. rewrite slice_cutoff.
  destruct (startswith k (strftime_hour now)) eqn:P; [|reflexivity].
  apply prefix_split in P as [r ->]. unfold strftime_hour, str_gt.
  rewrite append_assoc. rewrite compare_app_gt; [reflexivity|].
  discriminate.
Qed.

Lemma prune_spec now d kv :
  In kv (prune (strftime_hour now) d)
  <-> In kv d /\ str_gt (fst kv) (strftime_date now) = true.
Proof.
  unfold prune. rewrite filter_In, keep_is_date_comparison. reflexivity.
Qed.

(** C8. What the clean-up does: the retention test comes to comparing the
    key with today's date alone, so that a key of today's date is kept
    whenever anything follows the date, whatever its hour.  The entry of
    07:30 is still in the ledger at 09:30 of the same day, next to the one
    of the current hour, and only the one of the day before is removed. *)
Theorem prune_keeps_whole_day :
  (forall now k, keep (strftime_hour now) k = str_gt k (strftime_date now))
  /\ (forall now rest,
        keep (strftime_hour now) (strftime_date now ++ rest)
        = negb (rest =? "")%string)
  /\ prune (strftime_hour (DateTime 2024 1 15 9 30 0))
       [ ("2024-01-14-23-30:a", JBool true);
         ("2024-01-15-07-30:a", JBool true);
         ("2024-01-15-09-10:a", JBool true) ]
     = [ ("2024-01-15-07-30:a", JBool true);
         ("2024-01-15-09-10:a", JBool true) ].
Proof.
  split; [exact keep_is_date_comparison|]. split; [|reflexivity].
  intros now rest. rewrite keep_is_date_comparison. unfold str_gt.
  destruct (String.eqb_spec rest "") as [->|Hr].
  - rewrite append_nil_r. now rewrite compare_refl.
  - now rewrite compare_app_gt.
Qed.


(** ** The slot string *)

Lemma pad2_numeral n : 0 <= n <= 99 -> pad2 n = numeral 2 n.
Proof.
  intros H.
  assert (A : forallb (fun k => (pad2 (Z.of_nat k)
                                 =? numeral 2 (Z.of_nat k))%string)
                (seq 0 100) = true) by (vm_compute; reflexivity).
  rewrite forallb_forall in A. specialize (A (Z.to_nat n)).
  rewrite Z2Nat.id in A by lia. apply String.eqb_eq, A, in_seq. lia.
Qed.

(** From 1000 on, the four digits are the decimal numeral of the year,
    which is what [%Y] prints. *)
Lemma pad4_decimal n : 1000 <= n <= 9999 -> pad4 n = str_int n.
Proof.
  intros H.
  assert (A : forallb (fun k => (pad4 (Z.of_nat k)
                                 =? str_int (Z.of_nat k))%string)
                (seq (Z.to_nat 1000) (Z.to_nat 9000)) = true)
    by (vm_compute; reflexivity).
  rewrite forallb_forall in A. specialize (A (Z.to_nat n)).
  rewrite Z2Nat.id in A by lia. apply String.eqb_eq, A, in_seq. lia.
Qed.

Lemma pad4_numeral n : 1000 <= n <= 9999 -> pad4 n = numeral 4 n.
Proof.
  intros H. unfold numeral. rewrite <- (pad4_decimal n H).
  assert (L : String.length (pad4 n) = 4%nat)
    by (unfold pad4; now rewrite length_app, !length_pad2).
  now rewrite L.
Qed.

Lemma valid_components dt :
  valid_datetime dt = true ->
  1000 <= year dt <= 9999 /\ 1 <= month dt <= 12 /\ 1 <= day dt <= 31
  /\ 0 <= hour dt <= 23 /\ 0 <= minute dt <= 59.
Proof.
  unfold valid_datetime. rewrite !andb_true_iff, !Z.leb_le.
  intros H.
  assert (D : days_in_month (year dt) (month dt) <= 31).
  { unfold days_in_month.
    destruct (month dt =? 2); [destruct (is_leap (year dt)); lia|].
    destruct (_ || _); lia. }
  lia.
Qed.

(** What the sensor formats with [strftime] is the slot of the
    specification. *)
Lemma strftime_minute_slot dt :
  valid_datetime dt = true -> strftime_minute dt = slot_text dt.
Proof.
  intros V. destruct (valid_components dt V) as (Y & Mo & D & H & Mi).
  unfold strftime_minute, strftime_hour, strftime_date, slot_text.
  rewrite (pad4_numeral (year dt)), (pad2_numeral (month dt)),
    (pad2_numeral (day dt)), (pad2_numeral (hour dt)),
    (pad2_numeral (minute dt)) by lia.
  now rewrite !append_assoc.
Qed.

(** ** The ledger as a dict *)

Lemma dict_has_app k (d d' : dict) :
  dict_has k (d ++ d')%list = dict_has k d || dict_has k d'.
Proof. unfold dict_has. apply existsb_app. Qed.

Lemma dict_set_fresh k v d :
  dict_has k d = false -> dict_set k v d = (d ++ [(k, v)])%list.
Proof.
  induction d as [|[k' v'] d IH]; simpl; intros H; [reflexivity|].
  apply orb_false_iff in H as [H1 H2]. rewrite H1. now rewrite (IH H2).
Qed.

Lemma dict_has_In k (d : dict) :
  dict_has k d = true <-> In k (keys d).
Proof.
  unfold dict_has, keys. rewrite existsb_exists, in_map_iff.
  split; intros [kv [H1 H2]]; exists kv.
  - apply String.eqb_eq in H2. auto.
  - split; [assumption|]. now apply String.eqb_eq.
Qed.

Lemma lookup_app_l {V : Type} k (d d' : list (string * V)) v :
  lookup k d = Some v -> lookup k (d ++ d')%list = Some v.
Proof.
  induction d as [|[k' v'] d IH]; simpl; [discriminate|].
  destruct (k' =? k)%string; auto.
Qed.

Lemma lookup_fresh k v (d : dict) :
  dict_has k d = false -> lookup k (d ++ [(k, v)])%list = Some v.
Proof.
  induction d as [|[k' v'] d IH]; simpl; intros H.
  - now rewrite String.eqb_refl.
  - apply orb_false_iff in H as [H1 H2]. rewrite H1. auto.
Qed.

Lemma append_cancel (p a b : string) : p ++ a = p ++ b -> a = b.
Proof. induction p as [|c p IH]; simpl; intros H; [assumption|]. injection H. auto. Qed.

Lemma dedup_key_inj slot i j : dedup_key slot i = dedup_key slot j -> i = j.
Proof.
  unfold dedup_key. intros H. apply append_cancel in H.
  now apply (append_cancel ":") in H.
Qed.

Lemma dedup_key_eqb slot i j :
  (dedup_key slot i =? dedup_key slot j)%string = (i =? j)%string.
Proof.
  destruct (String.eqb_spec i j) as [->|N].
  - apply String.eqb_refl.
  - apply String.eqb_neq. intros H. apply N. eapply dedup_key_inj, H.
Qed.

Lemma prefix_app p r : prefix p (p ++ r) = true.
Proof.
  induction p as [|c p IH]; simpl; [now destruct r|].
  destruct (ascii_dec c c); [assumption | contradiction].
Qed.

(** A key of the current slot survives the clean-up. *)
Lemma keep_current_slot now i :
  keep (strftime_hour now) (dedup_key (strftime_minute now) i) = true.
Proof.
  unfold keep, startswith, dedup_key, strftime_minute.
  rewrite !append_assoc, prefix_app. reflexivity.
Qed.

Lemma filter_all {A : Type} (f : A -> bool) l :
  Forall (fun x => f x = true) l -> filter f l = l.
Proof.
  induction 1 as [|x l H _ IH]; simpl; [reflexivity|]. now rewrite H, IH.
Qed.

Lemma prune_idempotent cutoff d : prune cutoff (prune cutoff d) = prune cutoff d.
Proof.
  unfold prune. apply filter_all, Forall_forall. intros kv H.
  now apply filter_In in H.
Qed.

(** ** One pass over a swarm *)

Section SensorProperties.

Variable World : Type.
Variable get_swarms : World -> result (list swarm) * World.
Variable run_swarm : string -> World -> result string * World.
Variable json_loads : string -> result json.
Variable json_dumps : dict -> string.

Lemma visit_visited now slot sw lv m :
  visited run_swarm now slot sw lv m
    (fst (visit run_swarm now slot sw lv m))
    (snd (visit run_swarm now slot sw lv m)).
Proof.
  unfold visit.
  destruct (truthy_flag (is_paused sw)) eqn:P.
  { simpl. apply visit_skip; unfold due, evaluates, verdict; now rewrite P. }
  destruct (get_effective_cron sw) as [c|] eqn:C; simpl.
  2:{ apply visit_skip; unfold due, evaluates, verdict; now rewrite P, C. }
  destruct (c =? "")%string eqn:E; simpl.
  { apply visit_skip; unfold due, evaluates, verdict; now rewrite P, C, E. }
  assert (V : verdict now sw = Some (cron_matches c now))
    by (unfold verdict; now rewrite P, C, E).
  destruct (cron_matches c now) as [[|]|e] eqn:M; simpl.
  - assert (D : due now sw = true) by (unfold due; now rewrite V).
    destruct (dict_has (dedup_key slot (id sw)) (cursor lv)) eqn:K; simpl.
    + now apply visit_dedup.
    + destruct (run_swarm (id sw) (world m)) as [[res|e] w] eqn:R; simpl.
      * rewrite (dict_set_fresh _ _ _ K). now apply visit_triggered.
      * now apply visit_failed.
  - apply visit_skip; unfold due, evaluates; now rewrite V.
  - now apply visit_raise.
Qed.

Ltac loop_step now slot sw lv0 m0 E V :=
  simpl in E;
  pose proof (visit_visited now slot sw lv0 m0) as V;
  destruct (visit run_swarm now slot sw lv0 m0) as [[?lv1|?e1] ?m1];
  simpl in V.

(** ** The loop *)

(** What a pass leaves in the machine: the persisted cursor is untouched,
    the record of calls and the log only grow, and only by trigger calls. *)
Lemma visited_machine now slot sw lv m r m' :
  visited run_swarm now slot sw lv m r m' ->
  ctx_cursor m' = ctx_cursor m
  /\ (forall c, In c (calls m) -> In c (calls m'))
  /\ (forall c, In c (calls m') -> In c (calls m) \/ is_run c = true)
  /\ (forall l, In l (ctx_log m) -> In l (ctx_log m')).
Proof.
  intros V. destruct V; simpl; repeat split; auto; intros x Hx;
    try (apply in_or_app; now left);
    try (apply in_app_or in Hx as [Hx|[<-|[]]]; auto).
Qed.

Lemma evaluate_machine now slot swarms : forall lv0 m0 r m,
  evaluate run_swarm now slot swarms lv0 m0 = (r, m) ->
  ctx_cursor m = ctx_cursor m0
  /\ (forall c, In c (calls m0) -> In c (calls m))
  /\ (forall c, In c (calls m) -> In c (calls m0) \/ is_run c = true)
  /\ (forall l, In l (ctx_log m0) -> In l (ctx_log m)).
Proof.
  induction swarms as [|sw rest IH]; intros lv0 m0 r m E.
  - injection E as <- <-. auto.
  - loop_step now slot sw lv0 m0 E V;
      apply visited_machine in V as (V1 & V2 & V3 & V4).
    + apply IH in E as (E1 & E2 & E3 & E4). repeat split.
      * congruence.
      * auto.
      * intros c H. apply E3 in H as [H|H]; auto.
      * auto.
    + injection E as <- <-. auto.
Qed.

(** What a completed pass leaves in the local variables: the ledger grows
    at its end by keys of the current slot marked [True], one for each
    name added to [triggered]. *)
Lemma evaluate_ledger now slot swarms : forall lv0 m0 lv m,
  evaluate run_swarm now slot swarms lv0 m0 = (Ok lv, m) ->
  (forall n, In n (triggered lv0) -> In n (triggered lv))
  /\ exists added,
       cursor lv = (cursor lv0 ++ added)%list
       /\ Forall (fresh_mark now slot swarms) added
       /\ Forall (fun kv => dict_has (fst kv) (cursor lv0) = false) added.
Proof.
  induction swarms as [|sw rest IH]; intros lv0 m0 lv m E.
  - injection E as <- <-. split; [auto|]. exists []. rewrite app_nil_r. auto.
  - loop_step now slot sw lv0 m0 E V; [|discriminate].
    apply IH in E as (T & added & C & F & N).
    assert (F' : Forall (fresh_mark now slot (sw :: rest)) added).
    { eapply Forall_impl; [|exact F]. intros kv (H1 & sw' & H2 & H3).
      split; [assumption|]. exists sw'. simpl. tauto. }
    inversion V; subst; try (split; [assumption|]; exists added; now auto).
    split.
    + intros n H. apply T. simpl. apply in_or_app. now left.
    + exists ((dedup_key slot (id sw), JBool true) :: added).
      simpl in C. rewrite <- app_assoc in C. simpl in C.
      split; [assumption|]. split.
      * constructor; [|assumption]. split; [reflexivity|].
        exists sw. simpl. auto.
      * constructor; [assumption|].
        eapply Forall_impl; [|exact N]. intros kv H. simpl in H.
        rewrite dict_has_app in H. now apply orb_false_iff in H.
Qed.

(** The pass completes exactly when the matcher raises on no schedule:
    a failing trigger call never stops it. *)
Lemma evaluate_completes now slot swarms : forall lv0 m0,
  forallb (evaluates now) swarms = true ->
  exists lv m, evaluate run_swarm now slot swarms lv0 m0 = (Ok lv, m).
Proof.
  induction swarms as [|sw rest IH]; intros lv0 m0 H.
  - now exists lv0, m0.
  - simpl in H. apply andb_true_iff in H as [H1 H2].
    assert (E : exists r m,
               evaluate run_swarm now slot (sw :: rest) lv0 m0 = (r, m))
      by (destruct (evaluate _ _ _ _ _ _) as [r m]; eauto).
    destruct E as (r & m & E). rewrite E.
    loop_step now slot sw lv0 m0 E V.
    + destruct (IH lv1 m1 H2) as (lv & m' & E'). rewrite E' in E.
      injection E as <- <-. eauto.
    + exfalso. inversion V; subst. unfold evaluates in H1.
      match goal with K : verdict _ _ = _ |- _ => rewrite K in H1 end.
      discriminate.
Qed.

Lemma evaluate_completed now slot swarms : forall lv0 m0 lv m,
  evaluate run_swarm now slot swarms lv0 m0 = (Ok lv, m) ->
  forallb (evaluates now) swarms = true.
Proof.
  induction swarms as [|sw rest IH]; intros lv0 m0 lv m E; [reflexivity|].
  loop_step now slot sw lv0 m0 E V; [|discriminate].
  simpl. rewrite (IH _ _ _ _ E), andb_true_r.
  inversion V; subst; try assumption;
    unfold evaluates, due in *;
    destruct (verdict now sw) as [[[|]|]|]; try reflexivity; discriminate.
Qed.

(** A successful trigger call of the pass leaves the swarm's name in
    [triggered], its key in the ledger and a line in the log. *)
Lemma evaluate_triggered now slot swarms i res : forall lv0 m0 lv m,
  evaluate run_swarm now slot swarms lv0 m0 = (Ok lv, m) ->
  In (RunSwarm i (Ok res)) (calls m) ->
  In (RunSwarm i (Ok res)) (calls m0)
  \/ exists sw, In sw swarms /\ id sw = i
                /\ In (label sw) (triggered lv)
                /\ lookup (dedup_key slot i) (cursor lv) = Some (JBool true)
                /\ In (INFO, "Triggered swarm '" ++ label sw ++ "': " ++ res)
                      (ctx_log m).
Proof.
  induction swarms as [|sw rest IH]; intros lv0 m0 lv m E H.
  - injection E as <- <-. now left.
  - loop_step now slot sw lv0 m0 E V; [|discriminate].
    destruct (IH _ _ _ _ E H) as [H1 | (sw' & S1 & S2)].
    2:{ right. exists sw'. simpl. tauto. }
    pose proof (evaluate_ledger _ _ _ _ _ _ _ E) as (T & added & C & _ & _).
    pose proof (evaluate_machine _ _ _ _ _ _ _ E) as (_ & _ & _ & L).
    inversion V; subst; simpl in H1; auto;
      apply in_app_or in H1 as [H1|[H1|[]]]; auto; [|discriminate].
    injection H1 as <- <-. right. exists sw. simpl. repeat split; auto.
    + apply T. simpl. apply in_or_app. right. now left.
    + rewrite C. simpl. apply lookup_app_l. now apply lookup_fresh.
    + apply L. simpl. apply in_or_app. right. now left.
Qed.

Lemma fresh_marks_other now slot swarms i added :
  Forall (fresh_mark now slot swarms) added ->
  (forall sw, In sw swarms -> id sw <> i) ->
  dict_has (dedup_key slot i) added = false.
Proof.
  intros F N. induction F as [|kv added (_ & sw & S1 & _ & S2) _ IH];
    [reflexivity|].
  simpl. rewrite IH, orb_false_r, S2, dedup_key_eqb.
  apply String.eqb_neq. auto.
Qed.

(** With distinct identifiers, a swarm whose trigger call failed has no
    key in the ledger at the end of the pass. *)
Lemma evaluate_failed now slot swarms i e : forall lv0 m0 lv m,
  NoDup (map id swarms) ->
  evaluate run_swarm now slot swarms lv0 m0 = (Ok lv, m) ->
  In (RunSwarm i (Raise e)) (calls m) ->
  In (RunSwarm i (Raise e)) (calls m0)
  \/ dict_has (dedup_key slot i) (cursor lv) = false.
Proof.
  induction swarms as [|sw rest IH]; intros lv0 m0 lv m U E H.
  - injection E as <- <-. now left.
  - simpl in U. apply NoDup_cons_iff in U as [U1 U2].
    loop_step now slot sw lv0 m0 E V; [|discriminate].
    destruct (IH _ _ _ _ U2 E H) as [H1 | H1]; [|now right].
    pose proof (evaluate_ledger _ _ _ _ _ _ _ E) as (_ & added & C & F & _).
    inversion V; subst; simpl in H1; auto;
      apply in_app_or in H1 as [H1|[H1|[]]]; auto; [discriminate|].
    injection H1 as <- <-. right.
    rewrite C, dict_has_app.
    match goal with K : dict_has _ (cursor lv1) = false |- _ => rewrite K end.
    simpl. apply (fresh_marks_other now slot rest); [assumption|].
    intros sw' S1 S2. apply U1. rewrite <- S2. now apply in_map.
Qed.

(** Every due swarm of the list is reached: its key was in the ledger
    already, or a trigger call was issued for it. *)
Lemma evaluate_reaches now slot swarms : forall lv0 m0 lv m sw,
  evaluate run_swarm now slot swarms lv0 m0 = (Ok lv, m) ->
  In sw swarms -> due now sw = true ->
  dict_has (dedup_key slot (id sw)) (cursor lv0) = true
  \/ exists r, In (RunSwarm (id sw) r) (calls m).
Proof.
  induction swarms as [|sw0 rest IH]; intros lv0 m0 lv m sw E S D;
    [contradiction|].
  loop_step now slot sw0 lv0 m0 E V; [|discriminate].
  pose proof (evaluate_machine _ _ _ _ _ _ _ E) as (_ & M & _ & _).
  assert (Here : forall r, In (RunSwarm (id sw0) r) (calls m1) ->
                 sw0 = sw \/ id sw0 = id sw ->
                 exists r', In (RunSwarm (id sw) r') (calls m)).
  { intros r Hr Hs. exists r. apply M.
    destruct Hs as [<-|<-]; assumption. }
  destruct S as [<-|S].
  - inversion V; subst; try congruence; auto; right;
      eapply Here; eauto; simpl; apply in_or_app; right; now left.
  - destruct (IH _ _ _ _ _ E S D) as [K|K]; [|now right].
    inversion V; subst; auto.
    simpl in K. rewrite dict_has_app in K. apply orb_true_iff in K as [K|K];
      [now left|].
    simpl in K. rewrite orb_false_r, dedup_key_eqb in K.
    apply String.eqb_eq in K. right.
    eapply Here; eauto. simpl. apply in_or_app. right. now left.
Qed.

(** ** Counting the trigger calls *)

Lemma count_runs_app i a b :
  count_runs i (a ++ b) = (count_runs i a + count_runs i b)%nat.
Proof. unfold count_runs. now rewrite filter_app, List.length_app. Qed.

Lemma runs_ok_In cs c : runs_ok cs = true -> In c cs -> run_failed c = false.
Proof.
  unfold runs_ok. rewrite forallb_forall. intros H I.
  apply negb_true_iff. auto.
Qed.

(** When every trigger call of the pass succeeds, a swarm identifier is
    called once if it is due and its key is not in the ledger, and not at
    all otherwise; its key is in the ledger afterwards. *)
Lemma evaluate_counts now slot swarms i : forall lv0 m0 lv m,
  evaluate run_swarm now slot swarms lv0 m0 = (Ok lv, m) ->
  runs_ok (calls m) = true ->
  count_runs i (calls m)
  = (count_runs i (calls m0)
     + (if dict_has (dedup_key slot i) (cursor lv0) then 0
        else if due_id now i swarms then 1 else 0))%nat
  /\ dict_has (dedup_key slot i) (cursor lv)
     = dict_has (dedup_key slot i) (cursor lv0) || due_id now i swarms.
Proof.
  induction swarms as [|sw rest IH]; intros lv0 m0 lv m E R.
  - injection E as <- <-. simpl. rewrite orb_false_r.
    destruct (dict_has _ _); auto.
  - loop_step now slot sw lv0 m0 E V; [|discriminate].
    pose proof (evaluate_machine _ _ _ _ _ _ _ E) as (_ & M & _ & _).
    destruct (IH _ _ _ _ E R) as [IH1 IH2]. rewrite IH1, IH2. clear IH1 IH2.
    unfold due_id at 2 4. cbn [existsb]. fold (due_id now i rest).
    inversion V; subst; clear V.
    + match goal with K : due now sw = false |- _ => rewrite K end. auto.
    + match goal with K : due now sw = true |- _ => rewrite K end.
      cbn [andb]. destruct (String.eqb_spec (id sw) i) as [<-|N]; auto.
      match goal with K : dict_has _ (cursor lv1) = true |- _ => rewrite K end.
      auto.
    + match goal with K : due now sw = true |- _ => rewrite K end.
      cbn [andb cursor calls called log]. rewrite count_runs_app, dict_has_app.
      unfold count_runs at 2. cbn [filter is_run_of dict_has existsb fst].
      rewrite dedup_key_eqb, orb_false_r.
      destruct (String.eqb_spec (id sw) i) as [<-|N]; cbn [List.length orb].
      * match goal with K : dict_has _ (cursor lv0) = false |- _ =>
          rewrite K end.
        cbn [orb]. split; [lia | reflexivity].
      * rewrite orb_false_r. split; [lia | reflexivity].
    + exfalso.
      assert (F : run_failed (RunSwarm (id sw) (Raise e)) = false).
      { apply (runs_ok_In _ _ R), M. simpl. apply in_or_app. right. now left. }
      discriminate F.
Qed.

(** When the key of every due swarm is in the ledger, the pass changes
    nothing and calls nothing. *)
Lemma evaluate_all_deduped now slot swarms : forall lv0 m0,
  forallb (evaluates now) swarms = true ->
  (forall sw, In sw swarms -> due now sw = true ->
              dict_has (dedup_key slot (id sw)) (cursor lv0) = true) ->
  exists m, evaluate run_swarm now slot swarms lv0 m0 = (Ok lv0, m)
            /\ calls m = calls m0 /\ world m = world m0
            /\ ctx_cursor m = ctx_cursor m0.
Proof.
  induction swarms as [|sw rest IH]; intros lv0 m0 A K.
  - now exists m0.
  - simpl in A. apply andb_true_iff in A as [A1 A2].
    pose proof (visit_visited now slot sw lv0 m0) as V. simpl.
    destruct (visit run_swarm now slot sw lv0 m0) as [r1 m1]. simpl in V.
    assert (D : forall sw', In sw' rest -> due now sw' = true ->
                dict_has (dedup_key slot (id sw')) (cursor lv0) = true)
      by (intros; apply K; simpl; auto).
    inversion V; subst.
    + apply IH; assumption.
    + unfold evaluates in A1.
      match goal with H : verdict _ _ = _ |- _ => rewrite H in A1 end.
      discriminate.
    + destruct (IH lv0 (log DEBUG ("Skipping swarm " ++ id sw
                  ++ " - already triggered this minute") m0) A2 D)
        as (m & E1 & E2 & E3 & E4).
      exists m. auto.
    + rewrite K in *; simpl; auto; discriminate.
    + rewrite K in *; simpl; auto; discriminate.
Qed.

(** ** Two instants of one minute *)

Lemma cron_matches_same_minute a b c :
  same_minute a b -> cron_matches c a = cron_matches c b.
Proof.
  intros (Y & Mo & D & H & Mi).
  unfold cron_matches, cron_weekday, weekday, toordinal.
  now rewrite Y, Mo, D, H, Mi.
Qed.

Lemma strftime_same_minute a b :
  same_minute a b ->
  strftime_hour a = strftime_hour b /\ strftime_minute a = strftime_minute b.
Proof.
  intros (Y & Mo & D & H & Mi).
  unfold strftime_minute, strftime_hour, strftime_date.
  now rewrite Y, Mo, D, H, Mi.
Qed.

Lemma verdict_same_minute a b sw :
  same_minute a b -> verdict a sw = verdict b sw.
Proof.
  intros S. unfold verdict.
  destruct (truthy_flag (is_paused sw)); [reflexivity|].
  destruct (get_effective_cron sw) as [c|]; [|reflexivity].
  now rewrite (cron_matches_same_minute _ _ c S).
Qed.

Lemma visit_same_minute a b slot sw lv (m : machine World) :
  same_minute a b ->
  visit run_swarm a slot sw lv m = visit run_swarm b slot sw lv m.
Proof.
  intros S. unfold visit.
  destruct (get_effective_cron sw) as [c|]; [|reflexivity].
  now rewrite (cron_matches_same_minute _ _ c S).
Qed.

Lemma evaluate_same_minute a b slot swarms :
  same_minute a b -> forall lv (m : machine World),
  evaluate run_swarm a slot swarms lv m = evaluate run_swarm b slot swarms lv m.
Proof.
  intros S. induction swarms as [|sw rest IH]; intros lv m; [reflexivity|].
  simpl. rewrite (visit_same_minute _ _ _ _ _ _ S).
  destruct (visit run_swarm b slot sw lv m) as [[lv1|e] m1]; auto.
Qed.

Lemma tick_same_minute a b c w :
  same_minute a b ->
  tick get_swarms run_swarm json_loads json_dumps a c w
  = tick get_swarms run_swarm json_loads json_dumps b c w.
Proof.
  intros S. destruct (strftime_same_minute _ _ S) as [H1 H2].
  unfold tick, swarm_schedule_sensor. rewrite H1, H2.
  destruct (load json_loads (init c w)) as [j|e]; [|reflexivity].
  destruct (dict_items j) as [entries|e]; [|reflexivity].
  destruct (get_swarms (world (init c w))) as [[swarms|e] w1]; [|reflexivity].
  now rewrite (evaluate_same_minute _ _ _ _ S).
Qed.

(** ** The sensor, by the state of the cursor *)

Lemma tick_not_loaded now c w :
  pruned_ledger json_loads now c w = None ->
  exists e, tick get_swarms run_swarm json_loads json_dumps now c w
            = (Raise e, init c w).
Proof.
  unfold pruned_ledger, tick, swarm_schedule_sensor.
  destruct (load json_loads (init c w)) as [j|e]; [|eauto].
  destruct j; simpl; intros H; try discriminate; eauto.
Qed.

Lemma tick_loaded now c w pruned :
  pruned_ledger json_loads now c w = Some pruned ->
  tick get_swarms run_swarm json_loads json_dumps now c w
  = match get_swarms w with
    | (Raise e, w1) =>
        (Ok (SkipReason ("API error: " ++ exn_str e)),
         log ERROR ("Failed to fetch swarms: " ++ exn_str e)
           (called (GetSwarms (Raise e)) w1 (init c w)))
    | (Ok swarms, w1) =>
        match evaluate run_swarm now (strftime_minute now) swarms
                {| triggered := []; cursor := pruned |}
                (called (GetSwarms (Ok swarms)) w1 (init c w)) with
        | (Raise e, m') => (Raise e, m')
        | (Ok lv, m') =>
            match triggered lv with
            | [] => (Ok (SkipReason "No swarms matched current time"),
                     update_cursor (json_dumps (cursor lv)) m')
            | _ :: _ =>
                (Ok RunsTriggered, update_cursor (json_dumps (cursor lv)) m')
            end
        end
    end.
Proof.
  unfold pruned_ledger, tick, swarm_schedule_sensor.
  destruct (load json_loads (init c w)) as [j|e]; [|discriminate].
  destruct j; simpl; intros H; try discriminate.
  injection H as <-. reflexivity.
Qed.

Local Abbreviation the_tick := (tick get_swarms run_swarm json_loads json_dumps).
Local Abbreviation the_outgoing_ledger :=
  (outgoing_ledger get_swarms run_swarm json_loads).

(** A cycle whose fetch succeeded and that serialised a ledger. *)
Lemma tick_completed now c w swarms pruned final :
  pruned_ledger json_loads now c w = Some pruned ->
  fst (get_swarms w) = Ok swarms ->
  the_outgoing_ledger now c w = Some final ->
  exists lv m1,
    evaluate run_swarm now (strftime_minute now) swarms
      {| triggered := []; cursor := pruned |}
      (called (GetSwarms (Ok swarms)) (snd (get_swarms w)) (init c w))
    = (Ok lv, m1)
    /\ cursor lv = final
    /\ snd (the_tick now c w) = update_cursor (json_dumps final) m1
    /\ fst (the_tick now c w)
       = Ok (match triggered lv with
             | [] => SkipReason "No swarms matched current time"
             | _ :: _ => RunsTriggered
             end).
Proof.
  intros P G O. rewrite (tick_loaded _ _ _ _ P).
  unfold outgoing_ledger in O. rewrite P in O.
  destruct (get_swarms w) as [[swarms'|e] w1]; simpl in G; [|discriminate].
  injection G as ->. simpl.
  destruct (evaluate run_swarm now (strftime_minute now) swarms _ _)
    as [[lv|e] m1]; [|discriminate].
  injection O as <-. exists lv, m1.
  destruct (triggered lv); simpl; auto.
Qed.

Lemma tick_ok_ledgers now c w swarms r :
  fst (get_swarms w) = Ok swarms ->
  fst (the_tick now c w) = Ok r ->
  exists pruned final,
    pruned_ledger json_loads now c w = Some pruned
    /\ the_outgoing_ledger now c w = Some final.
Proof.
  intros G T.
  destruct (pruned_ledger json_loads now c w) as [pruned|] eqn:P.
  - exists pruned. rewrite (tick_loaded _ _ _ _ P) in T.
    unfold outgoing_ledger. rewrite P.
    destruct (get_swarms w) as [[swarms'|e] w1]; simpl in G; [|discriminate].
    destruct (evaluate run_swarm now (strftime_minute now) swarms' _ _)
      as [[lv|e] m1]; [eauto | discriminate].
  - destruct (tick_not_loaded now c w P) as [e E]. rewrite E in T.
    discriminate.
Qed.

(** C3. When the registry listing call fails, the cycle ends there: the
    outcome is the skip that carries the error, the cursor held by the
    context is the incoming one, and no trigger call was made. *)
Theorem fetch_failure_leaves_cursor now c w e :
  In (GetSwarms (Raise e))
    (calls (snd (tick get_swarms run_swarm json_loads json_dumps now c w))) ->
  fst (tick get_swarms run_swarm json_loads json_dumps now c w)
  = Ok (SkipReason ("API error: " ++ exn_str e))
  /\ ctx_cursor (snd (tick get_swarms run_swarm json_loads json_dumps
                        now c w)) = c
  /\ calls (snd (tick get_swarms run_swarm json_loads json_dumps now c w))
     = [GetSwarms (Raise e)].
Proof.
  destruct (pruned_ledger json_loads now c w) as [pruned|] eqn:P.
  2:{ destruct (tick_not_loaded now c w P) as [e' ->]. simpl. tauto. }
  rewrite (tick_loaded _ _ _ _ P).
  destruct (get_swarms w) as [[swarms|e'] w1].
  - destruct (evaluate run_swarm now (strftime_minute now) swarms _ _)
      as [r m1] eqn:E.
    apply evaluate_machine in E as (_ & _ & M & _).
    assert (N : ~ In (GetSwarms (Raise e)) (calls m1)).
    { intros H. apply M in H as [[H|[]]|H]; discriminate. }
    destruct r as [lv|e2]; [destruct (triggered lv)|]; simpl; tauto.
  - simpl. intros [H|[]]. injection H as ->. auto.
Qed.

(** C9, as the code has it.  Loading the cursor: a missing or empty
    cursor gives the empty ledger; any other text goes to [json.loads].
    When that gives an object, its members are the ledger; when it gives
    another JSON value (an array, a number, [null]), there is no ledger:
    [AttributeError] leaves the sensor where the entries are asked for;
    and a parse error leaves the sensor as it is raised.  In both failures
    nothing is called and nothing is written. *)
Theorem cursor_loading :
  json_loads "{}" = Ok (JObject []) ->
  (forall now c (w : World),
      c = None \/ c = Some "" ->
      load json_loads (init c w) = Ok (JObject [])
      /\ pruned_ledger json_loads now c w = Some [])
  /\ (forall now s (w : World) entries,
        s <> "" -> json_loads s = Ok (JObject entries) ->
        load json_loads (init (Some s) w) = Ok (JObject entries)
        /\ pruned_ledger json_loads now (Some s) w
           = Some (prune (strftime_hour now) entries))
  /\ (forall now s w j,
        s <> "" -> json_loads s = Ok j ->
        (forall entries, j <> JObject entries) ->
        load json_loads (init (Some s) w) = Ok j
        /\ pruned_ledger json_loads now (Some s) w = None
        /\ raises_class AttributeError (fst (the_tick now (Some s) w))
        /\ snd (the_tick now (Some s) w) = init (Some s) w)
  /\ (forall now s w e,
        s <> "" -> json_loads s = Raise e ->
        load json_loads (init (Some s) w) = Raise e
        /\ pruned_ledger json_loads now (Some s) w = None
        /\ the_tick now (Some s) w = (Raise e, init (Some s) w)).
Proof.
  intros Empty.
  assert (T : forall s (w : World), s <> "" ->
              load json_loads (init (Some s) w) = json_loads s).
  { intros s w N. unfold load, cursor_text. simpl.
    apply String.eqb_neq in N. now rewrite N. }
  split; [|split; [|split]].
  - intros now c w H.
    assert (L : load json_loads (init c w) = Ok (JObject []))
      by (destruct H as [->| ->]; exact Empty).
    split; [assumption|]. unfold pruned_ledger. now rewrite L.
  - intros now s w entries N J. rewrite <- J at 1.
    split; [now apply T|]. unfold pruned_ledger. now rewrite (T s w N), J.
  - intros now s w j N J O. rewrite <- J at 1. split; [now apply T|].
    unfold pruned_ledger, tick, swarm_schedule_sensor.
    rewrite (T s w N), J.
    destruct j; simpl; try (repeat split; try eexists; reflexivity).
    now contradiction (O members).
  - intros now s w e N J. rewrite <- J at 1. split; [now apply T|].
    unfold pruned_ledger, tick, swarm_schedule_sensor.
    now rewrite (T s w N), J.
Qed.

(** C10. In a completed cycle the ledger only grows: what is serialised
    is the pruned incoming ledger, every key of it still there, followed
    by new entries.  The key of a new entry is the slot of the instant,
    [YYYY-MM-DD-HH-mm] down to its minute, then a colon, then the
    identifier of a due swarm of the list; its value is [True]; and it was
    not a key of the pruned ledger. *)
Theorem ledger_monotone now c w swarms r :
  valid_datetime now = true ->
  fst (get_swarms w) = Ok swarms ->
  fst (the_tick now c w) = Ok r ->
  exists pruned final added,
    pruned_ledger json_loads now c w = Some pruned
    /\ the_outgoing_ledger now c w = Some final
    /\ ctx_cursor (snd (the_tick now c w)) = Some (json_dumps final)
    /\ final = (pruned ++ added)%list
    /\ (forall k, In k (keys pruned) -> In k (keys final))
    /\ Forall (fun kv =>
                 snd kv = JBool true
                 /\ exists sw, In sw swarms /\ due now sw = true
                               /\ fst kv = slot_text now ++ ":" ++ id sw)
         added
    /\ Forall (fun kv => dict_has (fst kv) pruned = false) added.
Proof.
  intros V G T.
  destruct (tick_ok_ledgers _ _ _ _ _ G T) as (pruned & final & P & O).
  destruct (tick_completed _ _ _ _ _ _ P G O) as (lv & m1 & E & C & S & _).
  apply evaluate_ledger in E as (_ & added & A & F & N). simpl in A.
  exists pruned, final, added. rewrite S. simpl.
  assert (Fin : final = (pruned ++ added)%list) by congruence.
  repeat split; auto.
  - intros k H. rewrite Fin. unfold keys in *. rewrite map_app.
    apply in_or_app. now left.
  - eapply Forall_impl; [|exact F].
    intros kv (H1 & sw & H2 & H3 & H4). split; [assumption|].
    exists sw. repeat split; try assumption.
    rewrite H4, (strftime_minute_slot now V). reflexivity.
Qed.

Lemma same_id_same_swarm swarms (a b : swarm) :
  NoDup (map id swarms) -> In a swarms -> In b swarms -> id a = id b -> a = b.
Proof.
  induction swarms as [|sw rest IH]; simpl; intros U A B E; [contradiction|].
  apply NoDup_cons_iff in U as [U1 U2].
  destruct A as [->|A], B as [->|B]; auto.
  - exfalso. apply U1. rewrite E. now apply in_map.
  - exfalso. apply U1. rewrite <- E. now apply in_map.
Qed.

(** What the [try] around the trigger call does give.  In a list of
    swarms with distinct identifiers whose schedules the matcher
    evaluates, when the trigger call of [a] fails and that of [b]
    succeeds, the cycle completes with runs triggered: the name of [b] is
    logged as triggered and its key is marked in the serialised ledger,
    the key of [a] is absent from it, and every due swarm of the list was
    reached. *)
Theorem trigger_isolation now c w swarms a b e res :
  fst (get_swarms w) = Ok swarms ->
  NoDup (map id swarms) ->
  forallb (evaluates now) swarms = true ->
  In b swarms ->
  In (RunSwarm (id a) (Raise e)) (calls (snd (the_tick now c w))) ->
  In (RunSwarm (id b) (Ok res)) (calls (snd (the_tick now c w))) ->
  fst (the_tick now c w) = Ok RunsTriggered
  /\ In (INFO, "Triggered swarm '" ++ label b ++ "': " ++ res)
        (ctx_log (snd (the_tick now c w)))
  /\ exists pruned final,
       pruned_ledger json_loads now c w = Some pruned
       /\ the_outgoing_ledger now c w = Some final
       /\ ctx_cursor (snd (the_tick now c w)) = Some (json_dumps final)
       /\ lookup (dedup_key (strftime_minute now) (id b)) final
          = Some (JBool true)
       /\ dict_has (dedup_key (strftime_minute now) (id a)) final = false
       /\ forall sw, In sw swarms -> due now sw = true ->
            dict_has (dedup_key (strftime_minute now) (id sw)) pruned = true
            \/ exists r,
                 In (RunSwarm (id sw) r) (calls (snd (the_tick now c w))).
Proof.
  intros G U A B Fa Ok_b.
  destruct (pruned_ledger json_loads now c w) as [pruned|] eqn:P.
  2:{ destruct (tick_not_loaded now c w P) as [e' E]. rewrite E in Fa.
      contradiction. }
  destruct (evaluate_completes now (strftime_minute now) swarms
              {| triggered := []; cursor := pruned |}
              (called (GetSwarms (Ok swarms)) (snd (get_swarms w)) (init c w))
              A) as (lv & m1 & E).
  assert (O : the_outgoing_ledger now c w = Some (cursor lv)).
  { unfold outgoing_ledger. rewrite P.
    destruct (get_swarms w) as [[swarms'|e'] w1]; simpl in G; [|discriminate].
    injection G as ->. simpl in E. now rewrite E. }
  destruct (tick_completed _ _ _ _ _ _ P G O) as (lv' & m1' & E' & _ & S & R).
  rewrite E in E'. injection E' as <- <-.
  rewrite S in *. cbn [calls ctx_log ctx_cursor update_cursor] in *.
  destruct (evaluate_triggered _ _ _ _ _ _ _ _ _ E Ok_b)
    as [H | (sw & S1 & S2 & S3 & S4 & S5)].
  { simpl in H. destruct H as [H|[]]. discriminate. }
  assert (sw = b) as -> by (eapply same_id_same_swarm; eauto).
  split; [|split].
  - rewrite R. destruct (triggered lv); [contradiction | reflexivity].
  - assumption.
  - exists pruned, (cursor lv). repeat split; auto.
    + destruct (evaluate_failed _ _ _ _ _ _ _ _ _ U E Fa) as [H|H];
        [|assumption].
      simpl in H. destruct H as [H|[]]. discriminate.
    + intros sw' I D. apply (evaluate_reaches _ _ _ _ _ _ _ _ E I D).
Qed.

(** ** What the loop calls and what it leaves behind *)

Lemma due_not_paused now sw :
  due now sw = true -> truthy_flag (is_paused sw) = false.
Proof.
  unfold due, verdict. destruct (truthy_flag (is_paused sw)); [discriminate|].
  reflexivity.
Qed.

Lemma visited_cursor now slot sw lv m lv' m' k :
  visited run_swarm now slot sw lv m (Ok lv') m' ->
  dict_has k (cursor lv') = false -> dict_has k (cursor lv) = false.
Proof.
  intros V H. inversion V; subst; auto.
  simpl in H. rewrite dict_has_app in H. now apply orb_false_iff in H.
Qed.

(** A trigger call is issued only for a due swarm of the list whose key
    is not in the ledger. *)
Lemma evaluate_calls_due now slot swarms i x : forall lv0 m0 r m,
  evaluate run_swarm now slot swarms lv0 m0 = (r, m) ->
  In (RunSwarm i x) (calls m) ->
  In (RunSwarm i x) (calls m0)
  \/ exists sw, In sw swarms /\ id sw = i /\ due now sw = true
                /\ dict_has (dedup_key slot i) (cursor lv0) = false.
Proof.
  induction swarms as [|sw rest IH]; intros lv0 m0 r m E H.
  - injection E as <- <-. now left.
  - loop_step now slot sw lv0 m0 E V.
    + destruct (IH _ _ _ _ E H) as [H1 | (sw' & S1 & S2 & S3 & S4)].
      2:{ right. exists sw'. simpl. repeat split; auto.
          eapply visited_cursor; eauto. }
      inversion V; subst; simpl in H1; auto;
        apply in_app_or in H1 as [H1|[H1|[]]]; auto;
        injection H1 as <- <-; right; exists sw; simpl; auto.
    + injection E as <- <-. inversion V; subst. now left.
Qed.

Lemma count_ok_app i a b :
  count_ok i (a ++ b) = (count_ok i a + count_ok i b)%nat.
Proof. unfold count_ok. now rewrite filter_app, List.length_app. Qed.

Lemma count_ok_single i j r :
  count_ok i [RunSwarm j r]
  = match r with
    | Ok _ => if (j =? i)%string then 1%nat else 0%nat
    | Raise _ => 0%nat
    end.
Proof.
  unfold count_ok. simpl. destruct r; [|reflexivity].
  now destruct (j =? i)%string.
Qed.

(** The successful trigger calls for one identifier: at most one more
    than before the pass, and none more when its key is in the ledger. *)
Lemma evaluate_count_ok now slot swarms i : forall lv0 m0 r m,
  evaluate run_swarm now slot swarms lv0 m0 = (r, m) ->
  (count_ok i (calls m)
   <= count_ok i (calls m0)
      + (if dict_has (dedup_key slot i) (cursor lv0) then 0 else 1))%nat.
Proof.
  induction swarms as [|sw rest IH]; intros lv0 m0 r m E.
  - injection E as <- <-. destruct (dict_has _ _); lia.
  - loop_step now slot sw lv0 m0 E V.
    + apply IH in E. inversion V; subst; clear V; auto.
      * cbn [cursor calls called log] in E.
        rewrite count_ok_app, dict_has_app, count_ok_single in E.
        cbn [dict_has existsb fst] in E.
        rewrite dedup_key_eqb, orb_false_r in E.
        destruct (String.eqb_spec (id sw) i) as [<-|N].
        -- match goal with K : dict_has _ (cursor lv0) = false |- _ =>
             rewrite K in * end.
           cbn [orb] in *. lia.
        -- rewrite orb_false_r in E.
           destruct (dict_has (dedup_key slot i) _); lia.
      * cbn [calls called log] in E.
        rewrite count_ok_app, count_ok_single in E.
        destruct (dict_has (dedup_key slot i) _); lia.
    + injection E as <- <-. inversion V; subst.
      destruct (dict_has _ _); lia.
Qed.

(** Every name in [triggered] is the label of a swarm of the list whose
    trigger call succeeded. *)
Lemma evaluate_names now slot swarms n : forall lv0 m0 lv m,
  evaluate run_swarm now slot swarms lv0 m0 = (Ok lv, m) ->
  In n (triggered lv) ->
  In n (triggered lv0)
  \/ exists sw res, In sw swarms /\ n = label sw
                    /\ In (RunSwarm (id sw) (Ok res)) (calls m).
Proof.
  induction swarms as [|sw rest IH]; intros lv0 m0 lv m E H.
  - injection E as <- <-. now left.
  - loop_step now slot sw lv0 m0 E V; [|discriminate].
    pose proof (evaluate_machine _ _ _ _ _ _ _ E) as (_ & M & _ & _).
    destruct (IH _ _ _ _ E H) as [H1 | (sw' & res & S1 & S2 & S3)].
    2:{ right. exists sw', res. simpl. auto. }
    inversion V; subst; auto.
    simpl in H1. apply in_app_or in H1 as [H1|[H1|[]]]; auto.
    right. exists sw, res. simpl. repeat split; auto.
    apply M. simpl. apply in_or_app. right. now left.
Qed.

(** A failed trigger call leaves an error line in the log. *)
Lemma evaluate_failure_logged now slot swarms i e : forall lv0 m0 r m,
  evaluate run_swarm now slot swarms lv0 m0 = (r, m) ->
  In (RunSwarm i (Raise e)) (calls m) ->
  In (RunSwarm i (Raise e)) (calls m0)
  \/ In (ERROR, "Failed to trigger swarm " ++ i ++ ": " ++ exn_str e)
        (ctx_log m).
Proof.
  induction swarms as [|sw rest IH]; intros lv0 m0 r m E H.
  - injection E as <- <-. now left.
  - loop_step now slot sw lv0 m0 E V.
    + pose proof (evaluate_machine _ _ _ _ _ _ _ E) as (_ & _ & _ & L).
      destruct (IH _ _ _ _ E H) as [H1 | H1]; [|now right].
      inversion V; subst; simpl in H1; auto;
        apply in_app_or in H1 as [H1|[H1|[]]]; auto; [discriminate|].
      injection H1 as <- <-. right. apply L. simpl.
      apply in_or_app. right. now left.
    + injection E as <- <-. inversion V; subst. now left.
Qed.

(** ** One cycle, whatever the API answers *)

(** The calls of a cycle that read its cursor and fetched the list. *)
Lemma tick_calls now c w pruned swarms w1 :
  pruned_ledger json_loads now c w = Some pruned ->
  get_swarms w = (Ok swarms, w1) ->
  exists r m1,
    evaluate run_swarm now (strftime_minute now) swarms
      {| triggered := []; cursor := pruned |}
      (called (GetSwarms (Ok swarms)) w1 (init c w)) = (r, m1)
    /\ calls (snd (tick get_swarms run_swarm json_loads json_dumps now c w))
       = calls m1
    /\ ctx_log (snd (tick get_swarms run_swarm json_loads json_dumps now c w))
       = ctx_log m1.
Proof.
  intros P G. rewrite (tick_loaded _ _ _ _ P), G.
  destruct (evaluate run_swarm now (strftime_minute now) swarms _ _)
    as [[lv|e] m1]; [destruct (triggered lv)|]; eauto.
Qed.

Lemma tick_call_due now c w i x :
  In (RunSwarm i x)
     (calls (snd (tick get_swarms run_swarm json_loads json_dumps now c w))) ->
  exists swarms pruned sw,
    fst (get_swarms w) = Ok swarms
    /\ pruned_ledger json_loads now c w = Some pruned
    /\ In sw swarms /\ id sw = i /\ due now sw = true
    /\ dict_has (dedup_key (strftime_minute now) i) pruned = false.
Proof.
  intros H.
  destruct (pruned_ledger json_loads now c w) as [pruned|] eqn:P.
  2:{ destruct (tick_not_loaded now c w P) as [e E]. rewrite E in H.
      contradiction. }
  destruct (get_swarms w) as [[swarms|e] w1] eqn:G.
  - destruct (tick_calls now c w pruned swarms w1 P G) as (r & m1 & E & C & _).
    rewrite C in H.
    destruct (evaluate_calls_due _ _ _ _ _ _ _ _ _ E H)
      as [[K|[]] | (sw & S1 & S2 & S3 & S4)]; [discriminate|].
    exists swarms, pruned, sw. simpl in S4. repeat split; auto.
  - rewrite (tick_loaded _ _ _ _ P), G in H. simpl in H.
    destruct H as [H|[]]. discriminate.
Qed.

Lemma tick_count_ok now c w i :
  (count_ok i
     (calls (snd (tick get_swarms run_swarm json_loads json_dumps now c w)))
   <= 1)%nat.
Proof.
  destruct (pruned_ledger json_loads now c w) as [pruned|] eqn:P.
  2:{ destruct (tick_not_loaded now c w P) as [e ->]. cbn. lia. }
  destruct (get_swarms w) as [[swarms|e] w1] eqn:G.
  - destruct (tick_calls now c w pruned swarms w1 P G) as (r & m1 & E & C & _).
    rewrite C. apply (evaluate_count_ok _ _ _ i) in E.
    change (count_ok i (calls (called (GetSwarms (Ok swarms)) w1 (init c w))))
      with 0%nat in E.
    destruct (dict_has _ _); lia.
  - rewrite (tick_loaded _ _ _ _ P), G. cbn. lia.
Qed.

Lemma count_ok_positive i cs :
  (0 < count_ok i cs)%nat -> exists res, In (RunSwarm i (Ok res)) cs.
Proof.
  unfold count_ok. induction cs as [|c cs IH]; simpl; [lia|].
  destruct c as [r|j [res|e]]; simpl; try (intros H; destruct (IH H); eauto).
  destruct (String.eqb_spec j i) as [->|N]; simpl; intros H.
  - exists res. now left.
  - destruct (IH H). eauto.
Qed.

Lemma count_ok_none i cs :
  (forall res, ~ In (RunSwarm i (Ok res)) cs) -> count_ok i cs = 0%nat.
Proof.
  intros H. destruct (count_ok i cs) eqn:E; [reflexivity|].
  destruct (count_ok_positive i cs) as [res R]; [lia|]. now apply H in R.
Qed.

(** The ledger a second cycle of the minute starts from is the one the
    first cycle wrote. *)
Lemma second_cycle_ledger now1 now2 c w swarms pruned final (w2 : World) :
  pruned_ledger json_loads now1 c w = Some pruned ->
  fst (get_swarms w) = Ok swarms ->
  outgoing_ledger get_swarms run_swarm json_loads now1 c w = Some final ->
  same_minute now1 now2 ->
  json_dumps final <> "" ->
  json_loads (json_dumps final) = Ok (JObject final) ->
  pruned_ledger json_loads now2 (Some (json_dumps final)) w2 = Some final.
Proof.
  intros P G O S Ne Rt.
  destruct (tick_completed _ _ _ _ _ _ P G O) as (lv & m1 & E & C & _ & _).
  pose proof (evaluate_ledger _ _ _ _ _ _ _ E) as (_ & added & L & F & _).
  simpl in L. rewrite C in L.
  destruct (strftime_same_minute _ _ S) as [Hh _].
  unfold pruned_ledger, load, cursor_text. simpl. rewrite <- Hh.
  apply String.eqb_neq in Ne. rewrite Ne. simpl. rewrite Rt. f_equal.
  unfold pruned_ledger in P.
  destruct (load json_loads (init c w)) as [[| | | | |entries]|];
    try discriminate.
  injection P as P. rewrite L. unfold prune in *.
  rewrite filter_app. f_equal.
  - rewrite <- P. apply prune_idempotent.
  - apply filter_all. eapply Forall_impl; [|exact F].
    intros kv (_ & sw & _ & _ & K). rewrite K. apply keep_current_slot.
Qed.

(** A key in the ledger at the end of a pass was there before, or a
    trigger call of the pass succeeded for its swarm. *)
Lemma evaluate_mark_called now slot swarms i : forall lv0 m0 lv m,
  evaluate run_swarm now slot swarms lv0 m0 = (Ok lv, m) ->
  dict_has (dedup_key slot i) (cursor lv) = true ->
  dict_has (dedup_key slot i) (cursor lv0) = true
  \/ exists res, In (RunSwarm i (Ok res)) (calls m).
Proof.
  induction swarms as [|sw rest IH]; intros lv0 m0 lv m E H.
  - injection E as <- <-. now left.
  - loop_step now slot sw lv0 m0 E V; [|discriminate].
    pose proof (evaluate_machine _ _ _ _ _ _ _ E) as (_ & M & _ & _).
    destruct (IH _ _ _ _ E H) as [K|K]; [|now right].
    inversion V; subst; auto.
    simpl in K. rewrite dict_has_app in K.
    apply orb_true_iff in K as [K|K]; [now left|].
    simpl in K. rewrite orb_false_r, dedup_key_eqb in K.
    apply String.eqb_eq in K. subst i.
    right. exists res. apply M. simpl. apply in_or_app. right. now left.
Qed.

Lemma count_ok_In i res cs :
  In (RunSwarm i (Ok res)) cs -> (0 < count_ok i cs)%nat.
Proof.
  unfold count_ok. induction cs as [|c cs IH]; simpl; [contradiction|].
  intros [->|H].
  - simpl. rewrite String.eqb_refl. simpl. lia.
  - destruct (is_ok_run_of i c); simpl; [lia | auto].
Qed.

(** C1, as the code has it.  Two cycles in one minute over the same swarm
    list, the second from the cursor the first wrote, the first one
    completed.  When the trigger calls of the first succeed, the second
    issues no trigger call and ends in the skip that says nothing matched,
    the cursor stays as it is, and over the two cycles a due swarm is
    called once, or not at all when its key was in the incoming ledger.
    And a due swarm whose key was not in the incoming ledger and for which
    no trigger call of the first cycle succeeded was called in vain by
    the first cycle and has no key in the cursor it wrote: the second
    cycle issues the call for it again. *)
Theorem dedup_idempotence now1 now2 c w swarms pruned final :
  pruned_ledger json_loads now1 c w = Some pruned ->
  fst (get_swarms w) = Ok swarms ->
  the_outgoing_ledger now1 c w = Some final ->
  same_minute now1 now2 ->
  json_dumps final <> "" ->
  json_loads (json_dumps final) = Ok (JObject final) ->
  fst (get_swarms (world (snd (the_tick now1 c w)))) = Ok swarms ->
  let out1 := the_tick now1 c w in
  let out2 := the_tick now2 (ctx_cursor (snd out1)) (world (snd out1)) in
  (runs_ok (calls (snd out1)) = true ->
   fst out2 = Ok (SkipReason "No swarms matched current time")
   /\ calls (snd out2) = [GetSwarms (Ok swarms)]
   /\ ctx_cursor (snd out2) = ctx_cursor (snd out1)
   /\ forall sw, In sw swarms -> due now1 sw = true ->
        count_runs (id sw) (calls (snd out1) ++ calls (snd out2))
        = if dict_has (dedup_key (strftime_minute now1) (id sw)) pruned
          then 0%nat else 1%nat)
  /\ (forall sw, In sw swarms -> due now1 sw = true ->
        dict_has (dedup_key (strftime_minute now1) (id sw)) pruned = false ->
        count_ok (id sw) (calls (snd out1)) = 0%nat ->
        (exists e, In (RunSwarm (id sw) (Raise e)) (calls (snd out1)))
        /\ dict_has (dedup_key (strftime_minute now1) (id sw)) final = false
        /\ exists r, In (RunSwarm (id sw) r) (calls (snd out2))).
Proof.
  intros P G O S Ne Rt G2 out1 out2. subst out1 out2.
  rewrite <- (tick_same_minute _ _ _ _ S).
  destruct (tick_completed _ _ _ _ _ _ P G O) as (lv & m1 & E & C & T & _).
  rewrite T in *. cbn [calls ctx_cursor world update_cursor] in *.
  set (slot := strftime_minute now1) in *.
  pose proof (evaluate_completed _ _ _ _ _ _ _ E) as A.
  (* the second cycle loads and prunes the ledger of the first *)
  assert (P2 : pruned_ledger json_loads now1 (Some (json_dumps final))
                 (world m1) = Some final).
  { apply (second_cycle_ledger now1 now1 c w swarms pruned final (world m1)
             P G O); try assumption. repeat split. }
  destruct (get_swarms (world m1)) as [[swarms'|e'] w2] eqn:G2e; simpl in G2;
    [|discriminate].
  injection G2 as ->.
  split.
  - intros R.
    (* every due swarm has its key there *)
    assert (K : forall sw, In sw swarms -> due now1 sw = true ->
                dict_has (dedup_key slot (id sw)) final = true).
    { intros sw I D.
      destruct (evaluate_counts now1 slot swarms (id sw) _ _ _ _ E R) as [_ K].
      rewrite C in K. rewrite K. apply orb_true_iff. right.
      unfold due_id. apply existsb_exists. exists sw.
      now rewrite D, String.eqb_refl. }
    rewrite (tick_loaded _ _ _ _ P2), G2e.
    destruct (evaluate_all_deduped now1 slot swarms
                {| triggered := []; cursor := final |}
                (called (GetSwarms (Ok swarms)) w2
                   (init (Some (json_dumps final)) (world m1))) A K)
      as (m2 & E2 & C2 & _ & _).
    fold slot. rewrite E2.
    cbn [triggered fst snd calls update_cursor ctx_cursor].
    rewrite C2. simpl. repeat split; auto.
    intros sw I D.
    destruct (evaluate_counts now1 slot swarms (id sw) _ _ _ _ E R) as [N _].
    rewrite count_runs_app, N. simpl.
    destruct (dict_has (dedup_key slot (id sw)) pruned); [reflexivity|].
    assert (Due : due_id now1 (id sw) swarms = true).
    { unfold due_id. apply existsb_exists. exists sw.
      now rewrite D, String.eqb_refl. }
    now rewrite Due.
  - intros sw I D K0 Z. split.
    { destruct (evaluate_reaches _ _ _ _ _ _ _ _ E I D) as [K | [[res|e] H]].
      - simpl in K. congruence.
      - apply count_ok_In in H. lia.
      - now exists e. }
    assert (KF : dict_has (dedup_key slot (id sw)) final = false).
    { destruct (dict_has (dedup_key slot (id sw)) final) eqn:KF;
        [exfalso | reflexivity].
      rewrite <- C in KF.
      destruct (evaluate_mark_called _ _ _ _ _ _ _ _ E KF) as [K | [res H]].
      - simpl in K. congruence.
      - apply count_ok_In in H. lia. }
    split; [exact KF|].
    destruct (tick_calls now1 (Some (json_dumps final)) (world m1) final
                swarms w2 P2 G2e) as (r & m2 & E2 & C2 & _).
    rewrite C2.
    destruct (evaluate_completes now1 slot swarms
                {| triggered := []; cursor := final |}
                (called (GetSwarms (Ok swarms)) w2
                   (init (Some (json_dumps final)) (world m1))) A)
      as (lv2 & m2' & E2').
    fold slot in E2. rewrite E2' in E2. injection E2 as <- <-.
    destruct (evaluate_reaches _ _ _ _ _ _ _ _ E2' I D) as [K | K];
      [|exact K].
    simpl in K. congruence.
Qed.

(** X8. A trigger call is only ever issued for a swarm of the fetched
    list that is not paused and is due at that instant, and whose key for
    the slot is not in the pruned ledger. *)
Theorem trigger_calls_only_for_due now c w i x :
  In (RunSwarm i x)
     (calls (snd (tick get_swarms run_swarm json_loads json_dumps now c w))) ->
  exists swarms pruned sw,
    fst (get_swarms w) = Ok swarms
    /\ pruned_ledger json_loads now c w = Some pruned
    /\ In sw swarms /\ id sw = i
    /\ truthy_flag (is_paused sw) = false
    /\ due now sw = true
    /\ dict_has (dedup_key (strftime_minute now) i) pruned = false.
Proof.
  intros H.
  destruct (tick_call_due now c w i x H)
    as (swarms & pruned & sw & G & P & S1 & S2 & S3 & S4).
  exists swarms, pruned, sw. repeat split; auto.
  now apply (due_not_paused now).
Qed.

(** X9. In one cycle at most one trigger call succeeds for a swarm
    identifier, however often it occurs in the list and whatever the API
    answers; and no call at all is issued for an identifier whose key is
    in the pruned ledger. *)
Theorem at_most_one_success_per_cycle now c w i :
  (count_ok i
     (calls (snd (tick get_swarms run_swarm json_loads json_dumps now c w)))
   <= 1)%nat
  /\ (forall pruned,
        pruned_ledger json_loads now c w = Some pruned ->
        dict_has (dedup_key (strftime_minute now) i) pruned = true ->
        forall x,
          ~ In (RunSwarm i x)
              (calls (snd (tick get_swarms run_swarm json_loads json_dumps
                             now c w)))).
Proof.
  split; [apply tick_count_ok|].
  intros pruned P K x H.
  destruct (tick_call_due now c w i x H)
    as (_ & pruned' & _ & _ & P' & _ & _ & _ & S4).
  rewrite P in P'. injection P' as <-. congruence.
Qed.

(** X10. At most once for a swarm and a minute: when a cycle completes
    and the cursor it wrote is read back by a second cycle of the same
    minute, the two cycles together hold at most one successful trigger
    call for any identifier, whatever the list and the answers of the
    API in the second cycle. *)
Theorem at_most_once_across_cycles now1 now2 c w swarms pruned final :
  pruned_ledger json_loads now1 c w = Some pruned ->
  fst (get_swarms w) = Ok swarms ->
  outgoing_ledger get_swarms run_swarm json_loads now1 c w = Some final ->
  same_minute now1 now2 ->
  json_dumps final <> "" ->
  json_loads (json_dumps final) = Ok (JObject final) ->
  forall i w2,
    (count_ok i
       (calls (snd (tick get_swarms run_swarm json_loads json_dumps
                      now1 c w)))
     + count_ok i
         (calls (snd (tick get_swarms run_swarm json_loads json_dumps now2
                        (ctx_cursor
                           (snd (tick get_swarms run_swarm json_loads
                                   json_dumps now1 c w)))
                        w2)))
     <= 1)%nat.
Proof.
  intros P G O S Ne Rt i w2.
  pose proof (tick_count_ok now1 c w i) as B1.
  destruct (tick_completed _ _ _ _ _ _ P G O) as (lv & m1 & E & C & T & _).
  rewrite T in *. cbn [calls ctx_cursor update_cursor] in *.
  pose proof (tick_count_ok now2 (Some (json_dumps final)) w2 i) as B2.
  destruct (count_ok i (calls m1)) as [|n] eqn:N1; [lia|].
  destruct (count_ok_positive i (calls m1) ltac:(lia)) as [res R].
  destruct (evaluate_triggered _ _ _ _ _ _ _ _ _ E R)
    as [[K|[]] | (sw & _ & _ & _ & K & _)]; [discriminate|].
  rewrite C in K.
  assert (Held : dict_has (dedup_key (strftime_minute now2) i) final = true).
  { destruct (strftime_same_minute _ _ S) as [_ <-].
    apply dict_has_In. unfold keys. clear - K.
    induction final as [|[k v] d IH]; simpl in *; [discriminate|].
    destruct (String.eqb_spec k (dedup_key (strftime_minute now1) i)); auto. }
  rewrite (count_ok_none i
             (calls (snd (tick get_swarms run_swarm json_loads json_dumps
                            now2 (Some (json_dumps final)) w2)))); [lia|].
  intros res' H.
  destruct (tick_call_due now2 _ w2 i _ H)
    as (_ & pruned2 & _ & _ & P2 & _ & _ & _ & S4).
  rewrite (second_cycle_ledger now1 now2 c w swarms pruned final w2
             P G O S Ne Rt) in P2.
  injection P2 as <-. congruence.
Qed.

(** X11. When an exception leaves the sensor, for a listing that is a
    list of swarm records.  It does when the cursor does not load to an
    object.  When the cursor loads and the listing call returns the list,
    it does exactly when the matcher raises on the schedule of one of the
    swarms; when the listing call fails, it does not.  And whenever an
    exception leaves the sensor, the cursor held by the context is the
    incoming one. *)
Theorem sensor_raise_conditions now c w :
  (pruned_ledger json_loads now c w = None ->
   exists e, fst (tick get_swarms run_swarm json_loads json_dumps now c w)
             = Raise e)
  /\ (forall pruned swarms,
        pruned_ledger json_loads now c w = Some pruned ->
        fst (get_swarms w) = Ok swarms ->
        ((exists e,
             fst (tick get_swarms run_swarm json_loads json_dumps now c w)
             = Raise e)
         <-> forallb (evaluates now) swarms = false))
  /\ (forall pruned e,
        pruned_ledger json_loads now c w = Some pruned ->
        fst (get_swarms w) = Raise e ->
        forall e',
          fst (tick get_swarms run_swarm json_loads json_dumps now c w)
          <> Raise e')
  /\ (forall e,
        fst (tick get_swarms run_swarm json_loads json_dumps now c w)
        = Raise e ->
        ctx_cursor (snd (tick get_swarms run_swarm json_loads json_dumps
                           now c w)) = c).
Proof.
  destruct (pruned_ledger json_loads now c w) as [pruned|] eqn:P.
  2:{ destruct (tick_not_loaded now c w P) as [e E]. rewrite E. simpl.
      repeat split; eauto; discriminate. }
  rewrite (tick_loaded _ _ _ _ P).
  destruct (get_swarms w) as [[swarms|e'] w1] eqn:G.
  - destruct (evaluate run_swarm now (strftime_minute now) swarms _ _)
      as [[lv|e2] m1] eqn:E.
    + pose proof (evaluate_completed _ _ _ _ _ _ _ E) as A.
      assert (R : forall e,
                fst (match triggered lv with
                     | [] => (Ok (SkipReason "No swarms matched current time"),
                              update_cursor (json_dumps (cursor lv)) m1)
                     | _ :: _ => (Ok RunsTriggered,
                                  update_cursor (json_dumps (cursor lv)) m1)
                     end) <> Raise e)
        by (intros e; destruct (triggered lv); discriminate).
      split; [discriminate|]. split; [|split].
      * intros pruned' swarms' _ H1. simpl in H1. injection H1 as <-.
        split; [intros [e H]; now apply R in H | congruence].
      * discriminate.
      * intros e H. now apply R in H.
    + pose proof (evaluate_machine _ _ _ _ _ _ _ E) as (Cur & _ & _ & _).
      simpl. split; [discriminate|]. split; [|split].
      * intros pruned' swarms' _ H1. injection H1 as <-.
        split; [|eauto]. intros _.
        destruct (forallb (evaluates now) swarms) eqn:A; [|reflexivity].
        destruct (evaluate_completes now (strftime_minute now) swarms
                    {| triggered := []; cursor := pruned |}
                    (called (GetSwarms (Ok swarms)) w1 (init c w)) A)
          as (lv & m & E').
        rewrite E' in E. discriminate.
      * discriminate.
      * intros _ _. exact Cur.
  - simpl. split; [discriminate|]. split; [|split]; try discriminate.
Qed.

(** X12. The outcome says what happened: the sensor returns [None]
    (runs triggered) exactly when a trigger call of the cycle succeeded;
    otherwise it returns a skip, and a completed cycle in which no call
    succeeded skips with the reason that nothing matched. *)
Theorem outcome_reflects_triggers now c w r :
  fst (tick get_swarms run_swarm json_loads json_dumps now c w) = Ok r ->
  (r = RunsTriggered
   <-> exists i res,
         In (RunSwarm i (Ok res))
            (calls (snd (tick get_swarms run_swarm json_loads json_dumps
                           now c w))))
  /\ (r <> RunsTriggered ->
      forall swarms, fst (get_swarms w) = Ok swarms ->
      r = SkipReason "No swarms matched current time").
Proof.
  destruct (pruned_ledger json_loads now c w) as [pruned|] eqn:P.
  2:{ destruct (tick_not_loaded now c w P) as [e E]. rewrite E. discriminate. }
  rewrite (tick_loaded _ _ _ _ P).
  destruct (get_swarms w) as [[swarms|e'] w1] eqn:G.
  - destruct (evaluate run_swarm now (strftime_minute now) swarms _ _)
      as [[lv|e2] m1] eqn:E; [|discriminate].
    destruct (triggered lv) as [|n names] eqn:T; simpl; intros H;
      injection H as <-.
    + split; [split|]; try discriminate; [|reflexivity].
      intros (i & res & H).
      destruct (evaluate_triggered _ _ _ _ _ _ _ _ _ E H)
        as [[K|[]] | (sw & _ & _ & K & _)]; [discriminate|].
      rewrite T in K. contradiction.
    + split; [split|]; [| reflexivity | congruence].
      intros _.
      destruct (evaluate_names now (strftime_minute now) swarms n _ _ _ _ E)
        as [[] | (sw & res & _ & _ & K)].
      { rewrite T. now left. }
      exists (id sw), res. exact K.
  - simpl. intros H. injection H as <-. split; [split|].
    + discriminate.
    + intros (i & res & [H|[]]). discriminate.
    + intros _ swarms H. discriminate.
Qed.

(** X13. A cursor that is JSON but not an object stops the sensor with
    [AttributeError] when its entries are asked for: nothing is fetched,
    nothing is written. *)
Theorem non_object_cursor_raises now s (w : World) j :
  s <> "" ->
  json_loads s = Ok j ->
  (forall members, j <> JObject members) ->
  raises_class AttributeError
    (fst (tick get_swarms run_swarm json_loads json_dumps now (Some s) w))
  /\ snd (tick get_swarms run_swarm json_loads json_dumps now (Some s) w)
     = init (Some s) w.
Proof.
  intros N J O. unfold tick, swarm_schedule_sensor, load, cursor_text. simpl.
  apply String.eqb_neq in N. rewrite N. simpl. rewrite J.
  destruct j; simpl; try (split; [eexists|]; reflexivity).
  now contradiction (O members).
Qed.

(** X14. No failure is silent: a failed listing call and every failed
    trigger call leave an error line in the log that names the step, the
    swarm and the text of the exception. *)
Theorem failures_are_logged now c w :
  (forall e,
      In (GetSwarms (Raise e))
         (calls (snd (tick get_swarms run_swarm json_loads json_dumps
                        now c w))) ->
      In (ERROR, "Failed to fetch swarms: " ++ exn_str e)
         (ctx_log (snd (tick get_swarms run_swarm json_loads json_dumps
                          now c w))))
  /\ (forall i e,
        In (RunSwarm i (Raise e))
           (calls (snd (tick get_swarms run_swarm json_loads json_dumps
                          now c w))) ->
        In (ERROR, "Failed to trigger swarm " ++ i ++ ": " ++ exn_str e)
           (ctx_log (snd (tick get_swarms run_swarm json_loads json_dumps
                            now c w)))).
Proof.
  destruct (pruned_ledger json_loads now c w) as [pruned|] eqn:P.
  2:{ destruct (tick_not_loaded now c w P) as [e E]. rewrite E. simpl.
      split; intros; contradiction. }
  destruct (get_swarms w) as [[swarms|e'] w1] eqn:G.
  - destruct (tick_calls now c w pruned swarms w1 P G)
      as (r & m1 & E & C & L).
    rewrite C, L. split.
    + intros e H.
      apply (evaluate_machine _ _ _ _ _ _ _ E) in H as [[H|[]]|H];
        discriminate.
    + intros i e H.
      destruct (evaluate_failure_logged _ _ _ _ _ _ _ _ _ E H)
        as [[K|[]] | K]; [discriminate | exact K].
  - rewrite (tick_loaded _ _ _ _ P), G. simpl. split.
    + intros e [H|[]]. injection H as <-. now left.
    + intros i e [H|[]]. discriminate.
Qed.

End SensorProperties.

(** ** The sensor in the scripted environment *)

Lemma fetch_failure_leaves_cursor_witness :
  fst (scripted_tick (Raise timed_out) monday_0900 (Some "{}") [])
  = Ok (SkipReason "API error: timed out")
  /\ ctx_cursor (snd (scripted_tick (Raise timed_out) monday_0900
                        (Some "{}") []))
     = Some "{}"
  /\ calls (snd (scripted_tick (Raise timed_out) monday_0900 (Some "{}") []))
     = [GetSwarms (Raise timed_out)].
Proof.
  apply (fetch_failure_leaves_cursor script
           (scripted_get_swarms (Raise timed_out)) scripted_run_swarm
           ledger_loads ledger_dumps monday_0900 (Some "{}") [] timed_out).
  vm_compute. left. reflexivity.
Defined.

Lemma cursor_loading_witness :
  pruned_ledger array_or_ledger_loads monday_0900 None ([] : script) = Some []
  /\ pruned_ledger array_or_ledger_loads (DateTime 2024 1 15 9 30 0)
       (Some held_a) ([] : script)
     = Some [(dedup_key (strftime_minute monday_0900) "a", JBool true)]
  /\ raises_class AttributeError
       (fst (tick (scripted_get_swarms (Ok [swarm_a])) scripted_run_swarm
               array_or_ledger_loads ledger_dumps monday_0900 (Some "[]") []))
  /\ tick (scripted_get_swarms (Ok [swarm_a])) scripted_run_swarm
       array_or_ledger_loads ledger_dumps monday_0900 (Some "{") []
     = (Raise (Exn JSONDecodeError "Expecting value"), init (Some "{") []).
Proof.
  destruct (cursor_loading script (scripted_get_swarms (Ok [swarm_a]))
              scripted_run_swarm array_or_ledger_loads ledger_dumps eq_refl)
    as (Empty & Object & Other & Bad).
  split; [|split; [|split]].
  - apply (Empty monday_0900 None []). now left.
  - apply (Object (DateTime 2024 1 15 9 30 0) held_a []
             [(dedup_key (strftime_minute monday_0900) "a", JBool true)]).
    + discriminate.
    + reflexivity.
  - apply (Other monday_0900 "[]" [] (JArray [])).
    + discriminate.
    + reflexivity.
    + discriminate.
  - apply (Bad monday_0900 "{" [] (Exn JSONDecodeError "Expecting value")).
    + discriminate.
    + reflexivity.
Defined.

(** C9 as stated fails: the cursor ["[]"] is well-formed JSON, [json.loads]
    raises no parse error on it, and yet it yields no ledger: the sensor
    raises [AttributeError] and leaves the cursor where it was. *)
Lemma cursor_array_is_no_ledger :
  array_or_ledger_loads "[]" = Ok (JArray [])
  /\ ~ (forall (loads : string -> result json) s j,
          s <> "" -> loads s = Ok j ->
          exists d, pruned_ledger loads monday_0900 (Some s) ([] : script)
                    = Some d)
  /\ tick (scripted_get_swarms (Ok [swarm_a])) scripted_run_swarm
       array_or_ledger_loads ledger_dumps monday_0900 (Some "[]") []
     = (Raise (Exn AttributeError "object has no attribute 'items'"),
        init (Some "[]") []).
Proof.
  split; [reflexivity|]. split; [|reflexivity].
  intros H.
  destruct (H array_or_ledger_loads "[]" (JArray []) ltac:(discriminate)
              eq_refl) as [d D].
  discriminate D.
Qed.

(** From a cursor that holds a key of the day before, a key of 08:00 for
    another swarm and the key of [swarm_a] for 09:00, the cycle of 09:00
    drops the first, keeps the other two and adds the key of [swarm_b]. *)
Lemma ledger_monotone_witness :
  pruned_ledger ledger_loads monday_0900 (Some held_three) ([] : script)
  = Some [ ("2024-01-15-08-00:z", JBool true);
           ("2024-01-15-09-00:a", JBool true) ]
  /\ ctx_cursor (snd (scripted_tick (Ok [swarm_a; swarm_b]) monday_0900
                        (Some held_three) []))
     = Some (ledger_dumps [ ("2024-01-15-08-00:z", JBool true);
                            ("2024-01-15-09-00:a", JBool true);
                            ("2024-01-15-09-00:b", JBool true) ])
  /\ Forall (fun kv =>
               snd kv = JBool true
               /\ exists sw, In sw [swarm_a; swarm_b]
                             /\ due monday_0900 sw = true
                             /\ fst kv = slot_text monday_0900 ++ ":" ++ id sw)
       [ ("2024-01-15-09-00:b", JBool true) ].
Proof.
  destruct (ledger_monotone script
              (scripted_get_swarms (Ok [swarm_a; swarm_b]))
              scripted_run_swarm ledger_loads ledger_dumps monday_0900
              (Some held_three) [] [swarm_a; swarm_b] RunsTriggered
              eq_refl eq_refl eq_refl)
    as (pruned & final & added & P & O & C & F & _ & A & _).
  vm_compute in P. injection P as <-.
  vm_compute in O. injection O as <-.
  injection F as <-.
  split; [reflexivity|]. split; [exact C | exact A].
Defined.

Lemma trigger_isolation_witness :
  fst (scripted_tick (Ok [swarm_a; swarm_b]) monday_0900 None
         [Raise http_500])
  = Ok RunsTriggered
  /\ In (INFO, "Triggered swarm 'Beta': {}")
        (ctx_log (snd (scripted_tick (Ok [swarm_a; swarm_b]) monday_0900 None
                         [Raise http_500]))).
Proof.
  destruct (trigger_isolation script
              (scripted_get_swarms (Ok [swarm_a; swarm_b]))
              scripted_run_swarm ledger_loads ledger_dumps monday_0900 None
              [Raise http_500] [swarm_a; swarm_b] swarm_a swarm_b http_500
              "{}") as (R & L & _).
  - reflexivity.
  - repeat constructor; simpl; intuition discriminate.
  - reflexivity.
  - simpl. auto.
  - vm_compute. auto.
  - vm_compute. auto.
  - split; [exact R | exact L].
Defined.

Lemma dedup_idempotence_witness :
  fst (scripted_tick (Ok [swarm_a; swarm_b]) monday_0900_later
         (ctx_cursor (snd (scripted_tick (Ok [swarm_a; swarm_b]) monday_0900
                             None [])))
         (world (snd (scripted_tick (Ok [swarm_a; swarm_b]) monday_0900
                        None []))))
  = Ok (SkipReason "No swarms matched current time")
  /\ dict_has (dedup_key (strftime_minute monday_0900) "a")
       [(dedup_key (strftime_minute monday_0900) "b", JBool true)] = false
  /\ exists r,
       In (RunSwarm "a" r)
          (calls (snd (scripted_tick (Ok [swarm_a; swarm_b])
                         monday_0900_later
                         (ctx_cursor
                            (snd (scripted_tick (Ok [swarm_a; swarm_b])
                                    monday_0900 None [Raise http_500])))
                         (world
                            (snd (scripted_tick (Ok [swarm_a; swarm_b])
                                    monday_0900 None [Raise http_500])))))).
Proof.
  split.
  - apply (proj1 (dedup_idempotence script
                    (scripted_get_swarms (Ok [swarm_a; swarm_b]))
                    scripted_run_swarm ledger_loads ledger_dumps
                    monday_0900 monday_0900_later None []
                    [swarm_a; swarm_b] []
                    [ (dedup_key (strftime_minute monday_0900) "a",
                       JBool true);
                      (dedup_key (strftime_minute monday_0900) "b",
                       JBool true) ]
                    eq_refl eq_refl eq_refl
                    (conj eq_refl (conj eq_refl (conj eq_refl
                       (conj eq_refl eq_refl))))
                    ltac:(vm_compute; discriminate) eq_refl eq_refl)).
    reflexivity.
  - apply (proj2 (proj2 (dedup_idempotence script
                    (scripted_get_swarms (Ok [swarm_a; swarm_b]))
                    scripted_run_swarm ledger_loads ledger_dumps
                    monday_0900 monday_0900_later None [Raise http_500]
                    [swarm_a; swarm_b] []
                    [ (dedup_key (strftime_minute monday_0900) "b",
                       JBool true) ]
                    eq_refl eq_refl eq_refl
                    (conj eq_refl (conj eq_refl (conj eq_refl
                       (conj eq_refl eq_refl))))
                    ltac:(vm_compute; discriminate) eq_refl eq_refl)
             swarm_a (or_introl eq_refl) eq_refl eq_refl eq_refl)).
Defined.

(** C1 as stated fails.  When the trigger call of the first cycle fails,
    the second cycle of the same minute issues it again and reports runs
    triggered; and when the incoming cursor already holds the key, neither
    cycle issues the call. *)
Lemma dedup_retries_failed_trigger :
  due monday_0900 swarm_a = true
  /\ (let out1 := scripted_tick (Ok [swarm_a]) monday_0900 None
                    [Raise http_500] in
      let out2 := scripted_tick (Ok [swarm_a]) monday_0900_later
                    (ctx_cursor (snd out1)) (world (snd out1)) in
      count_runs "a" (calls (snd out1) ++ calls (snd out2)) = 2%nat
      /\ fst out2 = Ok RunsTriggered
      /\ fst out2 <> Ok (SkipReason "No swarms matched current time"))
  /\ (let held := ledger_dumps
                    [(dedup_key (strftime_minute monday_0900) "a",
                      JBool true)] in
      let out1 := scripted_tick (Ok [swarm_a]) monday_0900 (Some held) [] in
      let out2 := scripted_tick (Ok [swarm_a]) monday_0900_later
                    (ctx_cursor (snd out1)) (world (snd out1)) in
      count_runs "a" (calls (snd out1) ++ calls (snd out2)) = 0%nat).
Proof.
  split; [reflexivity|]. split.
  - vm_compute. repeat split. discriminate.
  - reflexivity.
Qed.

(** C4.  The isolation does not hold of the code.  In the list of
    [swarm_a], [swarm_b] and a swarm whose schedule is ["a * * * *"],
    the first two are due; the trigger call of the first fails and that
    of the second succeeds, and then the matcher raises on the third
    schedule, outside the [try]: [ValueError] leaves the sensor, there is
    no outcome and no ledger is written, so that the key of [swarm_b] is
    nowhere and the next cycle of the minute triggers it a second time.
    Without the third swarm the cycle ends with runs triggered and the
    key of [swarm_b], and only that key, in the cursor. *)
Theorem trigger_isolation_lost_to_bad_schedule :
  let out := scripted_tick (Ok [swarm_a; swarm_b; swarm_bad]) monday_0900
               None [Raise http_500] in
  let next := scripted_tick (Ok [swarm_a; swarm_b; swarm_bad])
                monday_0900_later (ctx_cursor (snd out)) (world (snd out)) in
  let good := scripted_tick (Ok [swarm_a; swarm_b]) monday_0900 None
                [Raise http_500] in
  (due monday_0900 swarm_a = true /\ due monday_0900 swarm_b = true)
  /\ calls (snd out)
     = [ GetSwarms (Ok [swarm_a; swarm_b; swarm_bad]);
         RunSwarm "a" (Raise http_500); RunSwarm "b" (Ok "{}") ]
  /\ fst out = Raise (invalid_literal "a")
  /\ ctx_cursor (snd out) = None
  /\ outgoing_ledger (scripted_get_swarms (Ok [swarm_a; swarm_b; swarm_bad]))
       scripted_run_swarm ledger_loads monday_0900 None [Raise http_500]
     = None
  /\ count_ok "b" (calls (snd out) ++ calls (snd next)) = 2%nat
  /\ fst good = Ok RunsTriggered
  /\ ctx_cursor (snd good)
     = Some (ledger_dumps [("2024-01-15-09-00:b", JBool true)]).
Proof.
  vm_compute. repeat split.
Qed.

(** The exception of C2 is not caught in the loop: a swarm whose schedule
    the matcher raises on ends the cycle after the swarms before it were
    triggered and before the cursor is written, so that the next cycle of
    the minute triggers them again. *)
Lemma bad_schedule_escapes_sensor :
  let bad := Swarm "c" None None (Some "custom") (Some "a * * * *") in
  let out1 := scripted_tick (Ok [swarm_a; bad]) monday_0900 None [] in
  let out2 := scripted_tick (Ok [swarm_a; bad]) monday_0900_later
                (ctx_cursor (snd out1)) (world (snd out1)) in
  raises_class ValueError (fst out1)
  /\ ctx_cursor (snd out1) = None
  /\ count_runs "a" (calls (snd out1) ++ calls (snd out2)) = 2%nat.
Proof.
  vm_compute. repeat split. eexists. reflexivity.
Qed.

(** * Further properties *)

(** ** The expression as a list of fields *)

Lemma split_lstrip s : split_from "" (lstrip_with is_space s) = split_from "" s.
Proof.
  induction s as [|c s IH]; simpl; [reflexivity|].
  destruct (is_space c) eqn:E; [exact IH|]. simpl. now rewrite E.
Qed.

Lemma split_blank cur s :
  rstrip_with is_space s = "" ->
  split_from cur s = if (cur =? "")%string then [] else [cur].
Proof.
  revert cur. induction s as [|c s IH]; simpl; intros cur H; [reflexivity|].
  destruct (rstrip_with is_space s) eqn:R; [|discriminate].
  destruct (is_space c); [|discriminate].
  rewrite (IH "" eq_refl). simpl. now destruct (cur =? "")%string.
Qed.

Lemma append_not_empty (a : string) c : (a ++ String c "" =? "")%string = false.
Proof. now destruct a. Qed.

Lemma split_rstrip s : forall cur,
  split_from cur (rstrip_with is_space s) = split_from cur s.
Proof.
  induction s as [|c s IH]; intros cur; [reflexivity|].
  cbn [rstrip_with].
  destruct (rstrip_with is_space s) as [|c' r] eqn:R.
  - cbn [split_from]. destruct (is_space c) eqn:E.
    + cbn [split_from]. rewrite (split_blank "" s R). simpl.
      now destruct (cur =? "")%string.
    + cbn [split_from]. rewrite E, (split_blank _ s R).
      now rewrite append_not_empty.
  - cbn [split_from]. destruct (is_space c);
      [destruct (cur =? "")%string|]; now rewrite <- IH.
Qed.

Lemma split_strip s : split (strip s) = split s.
Proof.
  unfold split, strip, strip_with. now rewrite split_rstrip, split_lstrip.
Qed.

(** X1. The verdict of the matcher depends on the expression only through
    its whitespace-separated fields: blanks around the expression and
    runs of blanks between the fields make no difference. *)
Theorem cron_matches_fields_only e1 e2 dt :
  split e1 = split e2 -> cron_matches e1 dt = cron_matches e2 dt.
Proof.
  intros H. unfold cron_matches. now rewrite !split_strip, H.
Qed.

Lemma cron_matches_fields_only_witness :
  cron_matches (" 0" ++ String (ascii_of_nat 9) "9  * *   1  ") monday_0900
  = cron_matches "0 9 * * 1" monday_0900.
Proof. apply cron_matches_fields_only. reflexivity. Defined.

(** X3. Minute resolution: two instants of the same minute get the same
    verdict on every expression and the same slot. *)
Theorem minute_resolution a b :
  same_minute a b ->
  (forall e, cron_matches e a = cron_matches e b)
  /\ strftime_minute a = strftime_minute b
  /\ (forall sw, due a sw = due b sw).
Proof.
  intros S. split; [|split].
  - intros e. now apply cron_matches_same_minute.
  - now apply strftime_same_minute.
  - intros sw. unfold due. now rewrite (verdict_same_minute a b sw S).
Qed.

Lemma minute_resolution_witness :
  cron_matches "*/15 9 * * *" monday_0900
  = cron_matches "*/15 9 * * *" monday_0900_later
  /\ strftime_minute monday_0900 = strftime_minute monday_0900_later.
Proof.
  destruct (minute_resolution monday_0900 monday_0900_later) as (M & S & _).
  - repeat split.
  - split; [apply M | exact S].
Defined.

(** ** The default schedules *)

Lemma daily_nine dt :
  cron_matches "0 9 * * *" dt = Ok ((minute dt =? 0) && (hour dt =? 9)).
Proof.
  rewrite (cron_matches_rules _ dt "0" "9" "*" "*" "*"
             (minute dt =? 0) (hour dt =? 9) true true true).
  - now rewrite !andb_true_r.
  - reflexivity.
  - apply rule_plain; try reflexivity. discriminate.
  - apply rule_plain; try reflexivity. discriminate.
  - constructor.
  - constructor.
  - constructor.
Qed.

Lemma first_of_month_nine dt :
  cron_matches "0 9 1 * *" dt
  = Ok ((minute dt =? 0) && ((hour dt =? 9) && (day dt =? 1))).
Proof.
  rewrite (cron_matches_rules _ dt "0" "9" "1" "*" "*"
             (minute dt =? 0) (hour dt =? 9) (day dt =? 1) true true).
  - now rewrite !andb_true_r.
  - reflexivity.
  - apply rule_plain; try reflexivity. discriminate.
  - apply rule_plain; try reflexivity. discriminate.
  - apply rule_plain; try reflexivity. discriminate.
  - constructor.
  - constructor.
Qed.

Lemma verdict_of_default now sw ty c :
  truthy_flag (is_paused sw) = false ->
  truthy (cron_expression sw) = false ->
  schedule_type sw = Some ty -> lookup ty defaults = Some c -> c <> "" ->
  verdict now sw = Some (cron_matches c now).
Proof.
  intros P E T L N. unfold verdict, get_effective_cron.
  rewrite P, E, T, L.
  assert (Ty : truthy (Some ty) = true).
  { destruct (truthy (Some ty)) eqn:K; [reflexivity|].
    apply truthy_false in K as [K|K]; [discriminate|].
    injection K as ->. discriminate. }
  rewrite Ty. simpl. apply String.eqb_neq in N. now rewrite N.
Qed.

(** X4. A swarm that is not paused and has no expression of its own is
    due by the default of its type: a daily one at 09:00 of every day, a
    weekly one at 09:00 on Mondays, a monthly one at 09:00 on the first
    day of the month, and at no other minute. *)
Theorem default_schedules_due now sw :
  truthy_flag (is_paused sw) = false ->
  truthy (cron_expression sw) = false ->
  (schedule_type sw = Some "daily" ->
   due now sw = (minute now =? 0) && (hour now =? 9))
  /\ (schedule_type sw = Some "weekly" ->
      due now sw = (minute now =? 0) && ((hour now =? 9)
                    && (weekday now =? python_number Monday)))
  /\ (schedule_type sw = Some "monthly" ->
      due now sw = (minute now =? 0) && ((hour now =? 9) && (day now =? 1))).
Proof.
  intros P E. unfold due. repeat split; intros T.
  - rewrite (verdict_of_default now sw "daily" "0 9 * * *" P E T eq_refl);
      [|discriminate].
    rewrite daily_nine. now destruct (_ && _).
  - rewrite (verdict_of_default now sw "weekly" "0 9 * * 1" P E T eq_refl);
      [|discriminate].
    rewrite monday_nine.
    assert (W : (cron_weekday now =? 1) = (weekday now =? python_number Monday)).
    { destruct (Z.eqb_spec (weekday now) (python_number Monday)) as [H|H].
      - apply (weekday_conversion now Monday) in H. rewrite H. reflexivity.
      - apply Z.eqb_neq. intros K. apply H.
        now apply (weekday_conversion now Monday). }
    rewrite W. now destruct (_ && _).
  - rewrite (verdict_of_default now sw "monthly" "0 9 1 * *" P E T eq_refl);
      [|discriminate].
    rewrite first_of_month_nine. now destruct (_ && _).
Qed.

Lemma default_schedules_due_witness :
  due monday_0900 swarm_a = true
  /\ due (DateTime 2024 1 16 9 0 0) swarm_b = false.
Proof.
  split.
  - apply (proj1 (default_schedules_due monday_0900 swarm_a eq_refl eq_refl)).
    reflexivity.
  - apply (proj1 (proj2 (default_schedules_due (DateTime 2024 1 16 9 0 0)
                           swarm_b eq_refl eq_refl))).
    reflexivity.
Defined.

(** X5. What the resolver returns is never the empty string, and is the
    swarm's own expression or one of the three defaults; a swarm the
    resolver gives no schedule, or a paused one, is never due and never
    makes the matcher raise. *)
Theorem resolver_result_shape sw :
  (forall c, get_effective_cron sw = Some c ->
     c <> ""
     /\ (cron_expression sw = Some c
         \/ c = "0 9 * * *" \/ c = "0 9 * * 1" \/ c = "0 9 1 * *"))
  /\ (get_effective_cron sw = None \/ truthy_flag (is_paused sw) = true ->
      forall now, due now sw = false /\ evaluates now sw = true).
Proof.
  split.
  - unfold get_effective_cron. intros c.
    destruct (truthy (schedule_type sw)); cbn [negb]; [|discriminate].
    destruct (truthy (cron_expression sw)) eqn:E.
    + intros H. apply truthy_true in E as (s & E1 & E2).
      rewrite E1 in H. injection H as <-. auto.
    + destruct (schedule_type sw) as [ty|]; [|discriminate].
      unfold defaults. cbn [lookup].
      destruct ("daily" =? ty)%string; [|destruct ("weekly" =? ty)%string;
        [|destruct ("monthly" =? ty)%string]];
        intros H; try discriminate H; injection H as <-;
        (split; [discriminate | tauto]).
  - intros H now. unfold due, evaluates, verdict.
    destruct (truthy_flag (is_paused sw)); [auto|].
    destruct H as [H|H]; [|discriminate]. now rewrite H.
Qed.

Lemma resolver_result_shape_witness :
  due monday_0900 (Swarm "p" None (Some true) (Some "daily") None) = false
  /\ due monday_0900 (Swarm "c" None None (Some "custom") None) = false.
Proof.
  split.
  - apply (proj2 (resolver_result_shape
                    (Swarm "p" None (Some true) (Some "daily") None))).
    now right.
  - apply (proj2 (resolver_result_shape
                    (Swarm "c" None None (Some "custom") None))).
    now left.
Defined.

(** ** Slots and the order of dates *)

Lemma compare_digit a b :
  0 <= a <= 9 -> 0 <= b <= 9 ->
  Ascii.compare (digit_char a) (digit_char b) = (a ?= b).
Proof.
  intros Ha Hb.
  assert (A : a = 0 \/ a = 1 \/ a = 2 \/ a = 3 \/ a = 4 \/ a = 5 \/ a = 6
              \/ a = 7 \/ a = 8 \/ a = 9) by lia.
  assert (B : b = 0 \/ b = 1 \/ b = 2 \/ b = 3 \/ b = 4 \/ b = 5 \/ b = 6
              \/ b = 7 \/ b = 8 \/ b = 9) by lia.
  repeat (destruct A as [-> | A]); try subst a;
    repeat (destruct B as [-> | B]); try subst b; reflexivity.
Qed.

Lemma two_digits a :
  0 <= a <= 99 ->
  0 <= a / 10 <= 9 /\ 0 <= a mod 10 <= 9 /\ (a / 10) mod 10 = a / 10
  /\ a = 10 * (a / 10) + a mod 10.
Proof.
  intros H. pose proof (Z.div_mod a 10 ltac:(lia)) as D.
  pose proof (Z.mod_pos_bound a 10 ltac:(lia)) as M.
  assert (Q : 0 <= a / 10 <= 9) by lia.
  repeat split; try lia. apply Z.mod_small. lia.
Qed.

Lemma compare_pad2 a b x y :
  0 <= a <= 99 -> 0 <= b <= 99 ->
  String.compare (pad2 a ++ x) (pad2 b ++ y)
  = match a ?= b with Eq => String.compare x y | c => c end.
Proof.
  intros Ha Hb.
  destruct (two_digits a Ha) as (A1 & A0 & Am & Aeq).
  destruct (two_digits b Hb) as (B1 & B0 & Bm & Beq).
  unfold pad2. cbn [append String.compare]. rewrite Am, Bm.
  rewrite (compare_digit _ _ A1 B1), (compare_digit _ _ A0 B0).
  destruct (Z.compare_spec (a / 10) (b / 10)),
           (Z.compare_spec (a mod 10) (b mod 10)),
           (Z.compare_spec a b); try reflexivity; lia.
Qed.

Lemma compare_pad4 a b x y :
  0 <= a <= 9999 -> 0 <= b <= 9999 ->
  String.compare (pad4 a ++ x) (pad4 b ++ y)
  = match a ?= b with Eq => String.compare x y | c => c end.
Proof.
  intros Ha Hb. unfold pad4. rewrite !append_assoc.
  pose proof (Z.div_mod a 100 ltac:(lia)) as Da.
  pose proof (Z.mod_pos_bound a 100 ltac:(lia)) as Ma.
  pose proof (Z.div_mod b 100 ltac:(lia)) as Db.
  pose proof (Z.mod_pos_bound b 100 ltac:(lia)) as Mb.
  rewrite compare_pad2 by lia. rewrite compare_pad2 by lia.
  destruct (Z.compare_spec (a / 100) (b / 100)),
           (Z.compare_spec (a mod 100) (b mod 100)),
           (Z.compare_spec a b); try reflexivity; lia.
Qed.

Lemma valid_bounds dt :
  valid_datetime dt = true ->
  0 <= year dt <= 9999 /\ 0 <= month dt <= 99 /\ 0 <= day dt <= 99
  /\ 0 <= hour dt <= 99 /\ 0 <= minute dt <= 99.
Proof.
  unfold valid_datetime. rewrite !andb_true_iff, !Z.leb_le.
  intros H.
  assert (D : days_in_month (year dt) (month dt) <= 31).
  { unfold days_in_month.
    destruct (month dt =? 2); [destruct (is_leap (year dt)); lia|].
    destruct (_ || _); lia. }
  lia.
Qed.

Lemma compare_date a b x y :
  valid_datetime a = true -> valid_datetime b = true ->
  String.compare (strftime_date a ++ x) (strftime_date b ++ y)
  = match date_compare a b with Eq => String.compare x y | c => c end.
Proof.
  intros Va Vb.
  destruct (valid_bounds a Va) as (Ya & Ma & Da & _).
  destruct (valid_bounds b Vb) as (Yb & Mb & Db & _).
  unfold strftime_date, date_compare. rewrite !append_assoc.
  rewrite compare_pad4 by assumption. cbn [append String.compare].
  rewrite ascii_compare_refl, ?append_assoc, compare_pad2 by assumption.
  cbn [append String.compare].
  rewrite ascii_compare_refl, compare_pad2 by assumption.
  destruct (year a ?= year b), (month a ?= month b); reflexivity.
Qed.

(** X6. What the clean-up does with the key of a slot, by its date: the
    key is dropped when the slot is of a day before today and kept when it
    is of today or of a later day, whatever its hour. *)
Theorem prune_by_date a now i :
  valid_datetime a = true -> valid_datetime now = true ->
  keep (strftime_hour now) (dedup_key (strftime_minute a) i)
  = match date_compare a now with Lt => false | _ => true end
  /\ forall d v,
       In (dedup_key (strftime_minute a) i, v) d ->
       (In (dedup_key (strftime_minute a) i, v) (prune (strftime_hour now) d)
        <-> date_compare a now <> Lt).
Proof.
  intros Va Vn.
  assert (K : keep (strftime_hour now) (dedup_key (strftime_minute a) i)
              = match date_compare a now with Lt => false | _ => true end).
  { rewrite keep_is_date_comparison. unfold str_gt, dedup_key,
      strftime_minute, strftime_hour.
    rewrite !append_assoc, <- (append_nil_r (strftime_date now)).
    rewrite (compare_date _ _ _ _ Va Vn). cbn [append String.compare].
    now destruct (date_compare a now). }
  split; [exact K|].
  intros d v I. unfold prune. rewrite filter_In. cbn [fst]. rewrite K.
  destruct (date_compare a now); split; intros H; try tauto;
    try discriminate; try (destruct H; discriminate).
Qed.

Lemma prune_by_date_witness :
  keep (strftime_hour monday_0900)
    (dedup_key (strftime_minute (DateTime 2024 1 14 23 30 0)) "a") = false
  /\ keep (strftime_hour monday_0900)
       (dedup_key (strftime_minute (DateTime 2024 1 15 7 30 0)) "a") = true.
Proof.
  split.
  - apply (proj1 (prune_by_date (DateTime 2024 1 14 23 30 0) monday_0900 "a"
                    eq_refl eq_refl)).
  - apply (proj1 (prune_by_date (DateTime 2024 1 15 7 30 0) monday_0900 "a"
                    eq_refl eq_refl)).
Defined.

(** X7. A ledger key names one minute and one swarm: the keys of two
    valid instants and two identifiers are equal only when the instants
    are of the same minute and the identifiers are the same. *)
Theorem dedup_key_identifies a b i j :
  valid_datetime a = true -> valid_datetime b = true ->
  dedup_key (strftime_minute a) i = dedup_key (strftime_minute b) j ->
  same_minute a b /\ i = j.
Proof.
  intros Va Vb E.
  destruct (valid_bounds a Va) as (_ & _ & _ & Ha & Ma).
  destruct (valid_bounds b Vb) as (_ & _ & _ & Hb & Mb).
  assert (C : String.compare (dedup_key (strftime_minute a) i)
                (dedup_key (strftime_minute b) j) = Eq)
    by (rewrite E; apply compare_refl).
  unfold dedup_key, strftime_minute, strftime_hour in C.
  rewrite !append_assoc, (compare_date _ _ _ _ Va Vb) in C.
  unfold date_compare in C.
  destruct (Z.compare_spec (year a) (year b)) as [Y|Y|Y]; try discriminate.
  destruct (Z.compare_spec (month a) (month b)) as [Mo|Mo|Mo];
    try discriminate.
  destruct (Z.compare_spec (day a) (day b)) as [D|D|D]; try discriminate.
  cbn [append String.compare] in C.
  rewrite ascii_compare_refl, ?append_assoc, compare_pad2 in C by assumption.
  destruct (Z.compare_spec (hour a) (hour b)) as [H|H|H]; try discriminate.
  cbn [append String.compare] in C.
  rewrite ascii_compare_refl, ?append_assoc, compare_pad2 in C by assumption.
  destruct (Z.compare_spec (minute a) (minute b)) as [Mi|Mi|Mi];
    try discriminate.
  cbn [append String.compare] in C. rewrite ascii_compare_refl in C.
  apply String.compare_eq_iff in C. unfold same_minute.
  repeat split; assumption.
Qed.

Lemma dedup_key_identifies_witness :
  same_minute monday_0900 monday_0900_later /\ "a" = "a".
Proof.
  apply (dedup_key_identifies monday_0900 monday_0900_later "a" "a");
    reflexivity.
Defined.

(** ** The cycle in the scripted environment, again *)

Lemma trigger_calls_only_for_due_witness :
  exists swarms pruned sw,
    fst (scripted_get_swarms (Ok [swarm_a; swarm_b]) []) = Ok swarms
    /\ pruned_ledger ledger_loads monday_0900 None ([] : script) = Some pruned
    /\ In sw swarms /\ id sw = "b"
    /\ truthy_flag (is_paused sw) = false
    /\ due monday_0900 sw = true
    /\ dict_has (dedup_key (strftime_minute monday_0900) "b") pruned = false.
Proof.
  apply (trigger_calls_only_for_due script
           (scripted_get_swarms (Ok [swarm_a; swarm_b])) scripted_run_swarm
           ledger_loads ledger_dumps monday_0900 None [] "b" (Ok "{}")).
  vm_compute. auto.
Defined.

Lemma at_most_one_success_per_cycle_witness :
  ~ In (RunSwarm "a" (Ok "{}"))
       (calls (snd (scripted_tick (Ok [swarm_a; swarm_a]) monday_0900
                      (Some held_a) []))).
Proof.
  apply (proj2 (at_most_one_success_per_cycle script
                  (scripted_get_swarms (Ok [swarm_a; swarm_a]))
                  scripted_run_swarm ledger_loads ledger_dumps monday_0900
                  (Some held_a) [] "a")
           [(dedup_key (strftime_minute monday_0900) "a", JBool true)]);
    reflexivity.
Defined.

Lemma at_most_once_across_cycles_witness :
  (count_ok "a"
     (calls (snd (scripted_tick (Ok [swarm_a; swarm_b]) monday_0900 None [])))
   + count_ok "a"
       (calls (snd (scripted_tick (Ok [swarm_a; swarm_b]) monday_0900_later
                      (ctx_cursor
                         (snd (scripted_tick (Ok [swarm_a; swarm_b])
                                 monday_0900 None [])))
                      [])))
   <= 1)%nat.
Proof.
  apply (at_most_once_across_cycles script
           (scripted_get_swarms (Ok [swarm_a; swarm_b])) scripted_run_swarm
           ledger_loads ledger_dumps monday_0900 monday_0900_later None []
           [swarm_a; swarm_b] []
           [ (dedup_key (strftime_minute monday_0900) "a", JBool true);
             (dedup_key (strftime_minute monday_0900) "b", JBool true) ]).
  - reflexivity.
  - reflexivity.
  - reflexivity.
  - repeat split.
  - vm_compute. discriminate.
  - reflexivity.
Defined.

Lemma sensor_raise_conditions_witness :
  (exists e, fst (scripted_tick (Ok [swarm_a; swarm_bad]) monday_0900
                    (Some held_a) []) = Raise e)
  /\ ctx_cursor (snd (scripted_tick (Ok [swarm_a; swarm_bad]) monday_0900
                        (Some held_a) []))
     = Some held_a.
Proof.
  destruct (sensor_raise_conditions script
              (scripted_get_swarms (Ok [swarm_a; swarm_bad]))
              scripted_run_swarm ledger_loads ledger_dumps monday_0900
              (Some held_a) []) as (_ & Listed & _ & Kept).
  split.
  - apply (Listed [(dedup_key (strftime_minute monday_0900) "a", JBool true)]
             [swarm_a; swarm_bad]); reflexivity.
  - apply (Kept (invalid_literal "a")). reflexivity.
Defined.

Lemma outcome_reflects_triggers_witness :
  exists i res,
    In (RunSwarm i (Ok res))
       (calls (snd (scripted_tick (Ok [swarm_a]) monday_0900 None []))).
Proof.
  apply (proj1 (proj1 (outcome_reflects_triggers script
                         (scripted_get_swarms (Ok [swarm_a]))
                         scripted_run_swarm ledger_loads ledger_dumps
                         monday_0900 None [] RunsTriggered eq_refl))).
  reflexivity.
Defined.

Lemma non_object_cursor_raises_witness :
  raises_class AttributeError
    (fst (tick (scripted_get_swarms (Ok [swarm_a])) scripted_run_swarm
            array_or_ledger_loads ledger_dumps monday_0900 (Some "[]") [])).
Proof.
  apply (non_object_cursor_raises script
           (scripted_get_swarms (Ok [swarm_a])) scripted_run_swarm
           array_or_ledger_loads ledger_dumps monday_0900 "[]" []
           (JArray [])).
  - discriminate.
  - reflexivity.
  - discriminate.
Defined.

Lemma failures_are_logged_witness :
  In (ERROR, "Failed to trigger swarm a: API error running swarm a: 500 - ")
     (ctx_log (snd (scripted_tick (Ok [swarm_a; swarm_b]) monday_0900 None
                      [Raise http_500]))).
Proof.
  apply (proj2 (failures_are_logged script
                  (scripted_get_swarms (Ok [swarm_a; swarm_b]))
                  scripted_run_swarm ledger_loads ledger_dumps monday_0900
                  None [Raise http_500])
           "a" http_500).
  vm_compute. auto.
Defined.

(** ** The API resource *)

Lemma append_cancel_r (a b s : string) : a ++ s = b ++ s -> a = b.
Proof.
  revert b. induction a as [|x a IH]; intros [|y b] H; simpl in H.
  - reflexivity.
  - exfalso. apply (f_equal String.length) in H. simpl in H.
    rewrite length_app in H. lia.
  - exfalso. apply (f_equal String.length) in H. simpl in H.
    rewrite length_app in H. lia.
  - injection H as -> H. f_equal. now apply IH.
Qed.

(** X15. The two requests of the resource: the URL of a trigger names
    its swarm (two identifiers give two URLs) and is never the URL of the
    listing, and both requests carry the same headers, with the two
    credentials of the resource. *)
Theorem requests_identify_swarm self :
  (forall i j,
      url (ObservatoryApiResource.run_swarm_request self i)
      = url (ObservatoryApiResource.run_swarm_request self j) -> i = j)
  /\ (forall i,
        url (ObservatoryApiResource.run_swarm_request self i)
        <> url (ObservatoryApiResource.get_swarms_request self))
  /\ (forall i,
        request_headers (ObservatoryApiResource.run_swarm_request self i)
        = request_headers (ObservatoryApiResource.get_swarms_request self))
  /\ In ("CF-Access-Client-Id",
         ObservatoryApiResource.cf_access_client_id self)
        (request_headers (ObservatoryApiResource.get_swarms_request self))
  /\ In ("CF-Access-Client-Secret",
         ObservatoryApiResource.cf_access_client_secret self)
        (request_headers (ObservatoryApiResource.get_swarms_request self)).
Proof.
  repeat split.
  - intros i j H. simpl in H. apply append_cancel in H.
    apply (append_cancel "/api/admin/swarms/") in H.
    now apply append_cancel_r in H.
  - intros i H. simpl in H. apply append_cancel in H. discriminate.
  - simpl. auto.
  - simpl. auto 6.
Qed.

Section ResourceProperties.

Variable Net : Type.
Variable urlopen : request -> Net -> answer * Net.
Variable decode : string -> result string.
Variable json_loads : string -> result json.
Variable json_dumps : dict -> string.
Variable read_swarms : json -> option (list swarm).
Variable show : json -> string.

(** X16. What the listing returns.  It succeeds exactly on a response
    whose body decodes to a JSON object, with the value under "swarms" or
    the empty list when the key is missing; an HTTP error status is
    raised as [RuntimeError] with the status and the body, and every
    other exception is raised as it came. *)
Theorem get_swarms_outcomes self w :
  (forall v,
      fst (ObservatoryApiResource.get_swarms Net urlopen decode json_loads
             self w) = Ok v
      <-> exists body text members,
            fst (urlopen (ObservatoryApiResource.get_swarms_request self) w)
            = Responded body
            /\ decode body = Ok text
            /\ json_loads text = Ok (JObject members)
            /\ v = match lookup "swarms" members with
                   | Some x => x
                   | None => JArray []
                   end)
  /\ (forall code body text,
        fst (urlopen (ObservatoryApiResource.get_swarms_request self) w)
        = HTTPError code body ->
        decode body = Ok text ->
        fst (ObservatoryApiResource.get_swarms Net urlopen decode json_loads
               self w)
        = Raise (Exn RuntimeError
                   ("API error fetching swarms: " ++ str_int code
                    ++ " - " ++ text)))
  /\ (forall e,
        fst (urlopen (ObservatoryApiResource.get_swarms_request self) w)
        = Failed e ->
        fst (ObservatoryApiResource.get_swarms Net urlopen decode json_loads
               self w) = Raise e).
Proof.
  unfold ObservatoryApiResource.get_swarms.
  destruct (urlopen (ObservatoryApiResource.get_swarms_request self) w)
    as [[body|code body|e] w']; simpl.
  - split; [|split]; try discriminate.
    intros v. split.
    + destruct (decode body) as [text|e] eqn:D; simpl; [|discriminate].
      destruct (json_loads text) as [[| | | | |members]|e] eqn:J; simpl;
        try discriminate.
      intros H. injection H as <-. exists body, text, members.
      repeat split; auto.
    + intros (body' & text & members & B & D & J & ->).
      injection B as <-. rewrite D. simpl. now rewrite J.
  - split; [|split]; try discriminate.
    + intros v. split.
      * destruct (decode body); discriminate.
      * intros (b & _ & _ & B & _). discriminate.
    + intros code' body' text H D. injection H as <- <-. now rewrite D.
  - split; [|split]; try discriminate.
    + intros v. split; [discriminate|].
      intros (b & _ & _ & B & _). discriminate.
    + intros e' H. now injection H as <-.
Qed.

(** X17. An HTTP error status on the listing, seen from the sensor: the
    cycle ends in the skip that carries the status and the body, and the
    cursor is left as it was. *)
Theorem listing_http_error_is_skipped self fetch now c w code body text
    pruned :
  ObservatoryApiResource.listing Net urlopen decode json_loads read_swarms
    self w = Some (fetch w) ->
  pruned_ledger json_loads now c w = Some pruned ->
  fst (urlopen (ObservatoryApiResource.get_swarms_request self) w)
  = HTTPError code body ->
  decode body = Ok text ->
  fst (tick fetch
         (ObservatoryApiResource.trigger Net urlopen decode json_loads
            show self)
         json_loads json_dumps now c w)
  = Ok (SkipReason ("API error: API error fetching swarms: "
                    ++ str_int code ++ " - " ++ text))
  /\ ctx_cursor
       (snd (tick fetch
               (ObservatoryApiResource.trigger Net urlopen decode json_loads
                  show self)
               json_loads json_dumps now c w))
     = c.
Proof.
  intros F P A D. rewrite (tick_loaded _ _ _ _ _ _ _ _ _ P).
  unfold ObservatoryApiResource.listing, ObservatoryApiResource.get_swarms
    in F.
  destruct (urlopen (ObservatoryApiResource.get_swarms_request self) w)
    as [a w']. simpl in A. subst a. rewrite D in F. simpl in F.
  injection F as <-. simpl. auto.
Qed.

(** X18. A response to the listing that is an object without the key
    "swarms" is an empty listing: read as no records, it makes the cycle
    complete with nothing triggered, the skip that nothing matched and
    the pruned ledger written back. *)
Theorem missing_swarms_key_is_empty self fetch now c w body text members
    pruned :
  ObservatoryApiResource.listing Net urlopen decode json_loads read_swarms
    self w = Some (fetch w) ->
  pruned_ledger json_loads now c w = Some pruned ->
  fst (urlopen (ObservatoryApiResource.get_swarms_request self) w)
  = Responded body ->
  decode body = Ok text ->
  json_loads text = Ok (JObject members) ->
  lookup "swarms" members = None ->
  read_swarms (JArray []) = Some [] ->
  fst (tick fetch
         (ObservatoryApiResource.trigger Net urlopen decode json_loads
            show self)
         json_loads json_dumps now c w)
  = Ok (SkipReason "No swarms matched current time")
  /\ ctx_cursor
       (snd (tick fetch
               (ObservatoryApiResource.trigger Net urlopen decode json_loads
                  show self)
               json_loads json_dumps now c w))
     = Some (json_dumps pruned)
  /\ calls
       (snd (tick fetch
               (ObservatoryApiResource.trigger Net urlopen decode json_loads
                  show self)
               json_loads json_dumps now c w))
     = [GetSwarms (Ok [])].
Proof.
  intros F P A D J L R. rewrite (tick_loaded _ _ _ _ _ _ _ _ _ P).
  unfold ObservatoryApiResource.listing, ObservatoryApiResource.get_swarms
    in F.
  destruct (urlopen (ObservatoryApiResource.get_swarms_request self) w)
    as [a w']. simpl in A. subst a. rewrite D in F. simpl in F.
  rewrite J in F. simpl in F. rewrite L, R in F.
  injection F as <-. simpl. auto.
Qed.

(** X19. An HTTP error status on a trigger, seen from the loop: for a due
    swarm whose key is not in the ledger, the pass goes on with the
    ledger and the list of triggered names unchanged, and logs the
    failure with the swarm, the status and the body. *)
Theorem trigger_http_error_is_contained self now slot sw lv
    (m : machine Net) code body text w' :
  due now sw = true ->
  dict_has (dedup_key slot (id sw)) (cursor lv) = false ->
  urlopen (ObservatoryApiResource.run_swarm_request self (id sw)) (world m)
  = (HTTPError code body, w') ->
  decode body = Ok text ->
  let e := Exn RuntimeError
             ("API error running swarm " ++ id sw ++ ": "
              ++ str_int code ++ " - " ++ text) in
  visit (ObservatoryApiResource.trigger Net urlopen decode json_loads
           show self) now slot sw lv m
  = (Ok lv,
     log ERROR ("Failed to trigger swarm " ++ id sw
                ++ ": API error running swarm " ++ id sw ++ ": "
                ++ str_int code ++ " - " ++ text)
       (called (RunSwarm (id sw) (Raise e)) w' m)).
Proof.
  intros Du K A D e.
  pose proof (visit_visited Net
                (ObservatoryApiResource.trigger Net urlopen decode json_loads
                   show self) now slot sw lv m) as V.
  destruct (visit _ now slot sw lv m) as [r m1]. simpl in V.
  assert (T : ObservatoryApiResource.trigger Net urlopen decode json_loads
                show self (id sw) (world m) = (Raise e, w')).
  { unfold ObservatoryApiResource.trigger, ObservatoryApiResource.run_swarm.
    rewrite A, D. reflexivity. }
  inversion V; subst; try congruence.
  - unfold due in Du.
    match goal with H : verdict _ _ = _ |- _ => rewrite H in Du end.
    discriminate.
  - match goal with H : ObservatoryApiResource.trigger _ _ _ _ _ _ _ _ = _
                    |- _ => rewrite T in H; injection H as <- <- end.
    reflexivity.
Qed.

End ResourceProperties.

Lemma requests_identify_swarm_witness : "a" = "a".
Proof.
  apply (proj1 (requests_identify_swarm the_resource) "a" "a").
  reflexivity.
Defined.

Lemma get_swarms_outcomes_witness :
  fst (ObservatoryApiResource.get_swarms unit (fixed_net (Responded "{}"))
         ascii_decode ledger_loads the_resource tt)
  = Ok (JArray [])
  /\ fst (ObservatoryApiResource.get_swarms unit
            (fixed_net (HTTPError 503 "down")) ascii_decode ledger_loads
            the_resource tt)
     = Raise (Exn RuntimeError "API error fetching swarms: 503 - down").
Proof.
  split.
  - apply (proj1 (get_swarms_outcomes unit (fixed_net (Responded "{}"))
                    ascii_decode ledger_loads the_resource tt)).
    exists "{}", "{}", []. repeat split.
  - apply (proj1 (proj2 (get_swarms_outcomes unit
                           (fixed_net (HTTPError 503 "down")) ascii_decode
                           ledger_loads the_resource tt)) 503 "down" "down");
      reflexivity.
Defined.

Lemma listing_http_error_is_skipped_witness :
  ObservatoryApiResource.listing unit (fixed_net (HTTPError 503 "down"))
    ascii_decode ledger_loads no_records the_resource tt
  = Some (fixed_listing (Raise http_503) tt)
  /\ fst (tick (fixed_listing (Raise http_503))
            (ObservatoryApiResource.trigger unit
               (fixed_net (HTTPError 503 "down")) ascii_decode ledger_loads
               no_text the_resource)
            ledger_loads ledger_dumps monday_0900 (Some held_a) tt)
     = Ok (SkipReason "API error: API error fetching swarms: 503 - down").
Proof.
  split; [reflexivity|].
  apply (listing_http_error_is_skipped unit
           (fixed_net (HTTPError 503 "down")) ascii_decode ledger_loads
           ledger_dumps no_records no_text the_resource
           (fixed_listing (Raise http_503))
           monday_0900 (Some held_a) tt 503 "down" "down"
           [(dedup_key (strftime_minute monday_0900) "a", JBool true)]);
    reflexivity.
Defined.

Lemma missing_swarms_key_is_empty_witness :
  ObservatoryApiResource.listing unit (fixed_net (Responded "{}"))
    ascii_decode ledger_loads no_records the_resource tt
  = Some (fixed_listing (Ok []) tt)
  /\ fst (tick (fixed_listing (Ok []))
            (ObservatoryApiResource.trigger unit
               (fixed_net (Responded "{}")) ascii_decode ledger_loads
               no_text the_resource)
            ledger_loads ledger_dumps monday_0900 None tt)
     = Ok (SkipReason "No swarms matched current time").
Proof.
  split; [reflexivity|].
  apply (missing_swarms_key_is_empty unit
           (fixed_net (Responded "{}")) ascii_decode ledger_loads
           ledger_dumps no_records no_text the_resource
           (fixed_listing (Ok []))
           monday_0900 None tt "{}" "{}" [] []); reflexivity.
Defined.

Lemma trigger_http_error_is_contained_witness :
  fst (visit (ObservatoryApiResource.trigger unit
                (fixed_net (HTTPError 500 "")) ascii_decode ledger_loads
                no_text the_resource)
         monday_0900 (strftime_minute monday_0900) swarm_a
         {| triggered := []; cursor := [] |} (init None tt))
  = Ok {| triggered := []; cursor := [] |}.
Proof.
  rewrite (trigger_http_error_is_contained unit
             (fixed_net (HTTPError 500 "")) ascii_decode ledger_loads
             no_text the_resource monday_0900 (strftime_minute monday_0900)
             swarm_a {| triggered := []; cursor := [] |} (init None tt)
             500 "" "" tt); reflexivity.
Defined.

(** ** Ranges *)

(** X20. A range does not wrap around: when its upper bound is below its
    lower bound, the field matches no value. *)
Theorem range_does_not_wrap lo hi a b v :
  contains "/" lo = false -> contains "/" hi = false ->
  contains "-" lo = false -> contains "-" hi = false ->
  py_int lo = Ok a -> py_int hi = Ok b ->
  b < a ->
  matches_field (lo ++ "-" ++ hi) v = Ok false.
Proof.
  intros L1 H1 L2 H2 A B Lt.
  rewrite (matches_field_sound v (lo ++ "-" ++ hi) ((a <=? v) && (v <=? b))).
  - f_equal. apply andb_false_iff.
    destruct (Z.leb_spec a v); [right; apply Z.leb_gt; lia | now left].
  - now apply rule_range.
Qed.

Lemma range_does_not_wrap_witness :
  matches_field "22-2" 23 = Ok false /\ matches_field "22-2" 1 = Ok false.
Proof.
  split; apply (range_does_not_wrap "22" "2" 22 2); reflexivity.
Defined.
